(** * The event-indexer configuration generator of the bridge UI

    A shallow embedding of
    [packages/bridge-ui/scripts/vite-plugins/generateEventIndexerConfig.ts]:
    the Vite plugin whose [buildStart] hook turns the environment variable
    [CONFIGURED_EVENT_INDEXER] into the generated module
    [src/generated/eventIndexerConfig.ts].

    The TypeScript types are erased when the plugin runs, so the payload is
    modelled as the JavaScript value that [JSON.parse] hands back, and the
    formatting functions follow the dynamic semantics of the operations they
    are written with (property reads, truthiness, [Array.prototype.join],
    template literals). *)

From Stdlib Require Import ZArith DecimalString Ascii.
From Stdlib Require String DecimalZ DecimalPos.
From stdpp Require Import base option strings gmap list.

Set Warnings "-register-all".

(** ** Values *)

(** Values a decoded JSON document is made of, plus [undefined], which a
    read of an absent property yields.  An object is the finite map of its
    own properties.

    A number is known by the text [Number::toString] gives it: the plugin
    never computes with a number, it only prints it and tests it for
    truthiness, and that text tells one number from another (the two zeros,
    which print and test alike, apart).  So [1] is [VNumber "1"], [1.5] is
    [VNumber "1.5"], and the number that [18446744073709551616] (2^64)
    decodes to is [VNumber "18446744073709552000"].  Finding the text is the
    decoder's and the engine's work, not the plugin's. *)
Inductive Value : Type :=
| VUndefined
| VNull
| VBool (b : bool)
| VNumber (text : string)
| VString (s : string)
| VArray (elems : list Value)
| VObject (props : gmap string Value).

(** What a [throw] carries.  [Error] is [new Error(message)], [TypeError] is
    the engine's own error for a bad property read or call, and [Raised] is
    whatever a helper outside this file raises. *)
Inductive Exn : Type :=
| Error (message : string)
| TypeError
| Raised (what : string).

(** The result of evaluating an expression that may throw. *)
Inductive Completion (A : Type) : Type :=
| Normal (a : A)
| Throw (e : Exn).
Arguments Normal {A} a.
Arguments Throw {A} e.

#[global] Instance Completion_ret : MRet Completion := fun _ a => Normal a.
#[global] Instance Completion_bind : MBind Completion := fun _ _ k c =>
  match c with
  | Normal a => k a
  | Throw e => Throw e
  end.

(** The double-quote character, as a one-character string. *)
Definition dquote : string := String (ascii_of_nat 34) EmptyString.

(** ** The JavaScript operations the plugin is written with *)

(** [ToBoolean]: the falsy values are [undefined], [null], [false], the
    numbers zero and [NaN], and the empty string; arrays and objects are
    always truthy. *)
Definition ToBoolean (v : Value) : bool :=
  match v with
  | VUndefined | VNull => false
  | VBool b => b
  | VNumber text => negb (bool_decide (text = "0")) && negb (bool_decide (text = "NaN"))
  | VString s => negb (bool_decide (s = EmptyString))
  | VArray _ | VObject _ => true
  end.

(** [Array.isArray]. *)
Definition isArray (v : Value) : bool :=
  match v with
  | VArray _ => true
  | _ => false
  end.

(** [v.key] for the property names this plugin reads
    ([configuredEventIndexer], [chainIds], [url]), none of which a built-in
    prototype defines: reading from [undefined] or [null] throws, an object
    answers with its own property, anything else with [undefined]. *)
Definition Get (v : Value) (key : string) : Completion Value :=
  match v with
  | VUndefined | VNull => Throw TypeError
  | VObject props => Normal (default VUndefined (props !! key))
  | _ => Normal VUndefined
  end.

(** The concatenation [Array.prototype.join] performs once every element
    has been turned into a string. *)
Fixpoint joinStrings (sep : string) (parts : list string) : string :=
  match parts with
  | [] => EmptyString
  | [p] => p
  | p :: rest => p +:+ sep +:+ joinStrings sep rest
  end.

(** Converting the elements from left to right, stopping at the first one
    that throws. *)
Fixpoint mapCompletion {A B : Type} (f : A → Completion B) (l : list A)
  : Completion (list B) :=
  match l with
  | [] => Normal []
  | x :: rest => y ← f x; ys ← mapCompletion f rest; Normal (y :: ys)
  end.

(** [ToString].  An array prints as its elements joined by a comma, with
    [undefined] and [null] elements printing as nothing.  A plain object
    prints as [[object Object]]; one that carries an own [toString] property
    (never a function in decoded JSON) has no usable conversion and throws. *)
Fixpoint ToString (v : Value) : Completion string :=
  match v with
  | VUndefined => Normal "undefined"
  | VNull => Normal "null"
  | VBool true => Normal "true"
  | VBool false => Normal "false"
  | VNumber text => Normal text
  | VString s => Normal s
  | VArray elems =>
      parts ← (fix each (es : list Value) : Completion (list string) :=
                 match es with
                 | [] => Normal []
                 | e :: rest =>
                     p ← match e with
                         | VUndefined | VNull => Normal EmptyString
                         | _ => ToString e
                         end;
                     ps ← each rest;
                     Normal (p :: ps)
                 end) elems;
      Normal (joinStrings "," parts)
  | VObject props =>
      match props !! "toString" with
      | Some _ => Throw TypeError
      | None => Normal "[object Object]"
      end
  end.

(** How [join] prints one element. *)
Definition elementToString (e : Value) : Completion string :=
  match e with
  | VUndefined | VNull => Normal EmptyString
  | _ => ToString e
  end.

(** [Array.prototype.join] with an explicit separator. *)
Definition Array_join (sep : string) (elems : list Value) : Completion string :=
  parts ← mapCompletion elementToString elems;
  Normal (joinStrings sep parts).

(** The method call [v.join(sep)]: only an array has a [join] to call. *)
Definition callJoin (v : Value) (sep : string) : Completion string :=
  match v with
  | VArray elems => Array_join sep elems
  | _ => Throw TypeError
  end.

(** ** The literal formatter *)

(** [_formatEventIndexerConfigToTsLiteral]: the template literal
    [{chainIds: [${config.chainIds ? config.chainIds.join(', ') : ''}], url: "${config.url}"}],
    its two substitutions evaluated and converted in order. *)
Definition _formatEventIndexerConfigToTsLiteral (config : Value) : Completion string :=
  test ← Get config "chainIds";
  ids ← (if ToBoolean test
         then receiver ← Get config "chainIds"; callJoin receiver ", "
         else Normal EmptyString);
  url ← Get config "url";
  urlText ← ToString url;
  Normal ("{chainIds: [" +:+ ids +:+ "], url: " +:+ dquote +:+ urlText +:+ dquote +:+ "}").

(** [_formatObjectToTsLiteral]:
    [`[${indexer.map(_formatEventIndexerConfigToTsLiteral).join(', ')}]`]. *)
Definition _formatObjectToTsLiteral (indexer : Value) : Completion string :=
  match indexer with
  | VArray elems =>
      rendered ← mapCompletion _formatEventIndexerConfigToTsLiteral elems;
      Normal ("[" +:+ joinStrings ", " rendered +:+ "]")
  | _ => Throw TypeError
  end.

(** ** Typed entries *)

(** [EventIndexerConfig] as the formatter's signature has it: chain
    identifiers (possibly absent) and a URL.  The chain identifiers of a
    typed entry are integers; [number] is their run-time value as long as
    they are safe integers. *)
Record EventIndexerConfig : Type := {
  chainIds : option (list Z);
  url : string
}.

(** The integers whose text is their decimal digits: the safe integers,
    up to [Number.MAX_SAFE_INTEGER] = 2^53 - 1 in magnitude. *)
Definition safeInteger (n : Z) : Prop :=
  (- (2 ^ 53 - 1) ≤ n ≤ 2 ^ 53 - 1)%Z.

(** The decimal digits of an integer, with a minus sign when it is
    negative.  This is the text of the number [n] when [n] is a safe
    integer; beyond that range the text is in general another one (2^64
    prints as [18446744073709552000], 10^21 as [1e+21]). *)
Definition decimal (n : Z) : string :=
  NilZero.string_of_int (Z.to_int n).

(** The value of a safe integer. *)
Definition number (n : Z) : Value := VNumber (decimal n).

(** The object a typed entry is at run time. *)
Definition entryValue (c : EventIndexerConfig) : Value :=
  match chainIds c with
  | Some ids =>
      VObject (<["chainIds" := VArray (number <$> ids)]> {["url" := VString (url c)]})
  | None => VObject {["url" := VString (url c)]}
  end.

(** ** The world the hook runs in *)

(** What an observer sees of a run, in the order it happens: lines of the
    plugin's logger, of [console.error] and [console.log], and writes to
    disk. *)
Inductive Event : Type :=
| LoggerInfo (msg : string)
| ConsoleError (msg : string)
| ConsoleLog (args : list string)
| FileWritten (path content : string).

(** The disk (file name to contents) and the events so far, oldest first. *)
Record World : Type := {
  files : gmap string string;
  trace : list Event
}.

(** An asynchronous function: it runs against the world, changes it, and
    either returns or throws.  Effects made before a throw stay. *)
Definition Task (A : Type) : Type := World → Completion A * World.

#[global] Instance Task_ret : MRet Task := fun _ a w => (Normal a, w).
#[global] Instance Task_bind : MBind Task := fun _ _ k m w =>
  match m w with
  | (Normal a, w') => k a w'
  | (Throw e, w') => (Throw e, w')
  end.

Definition throw {A : Type} (e : Exn) : Task A := fun w => (Throw e, w).

Definition lift {A : Type} (c : Completion A) : Task A := fun w => (c, w).

Definition emit (e : Event) : Task unit := fun w =>
  (Normal tt, {| files := files w; trace := trace w ++ [e] |}).

Definition logger_info (msg : string) : Task unit := emit (LoggerInfo msg).
Definition console_error (msg : string) : Task unit := emit (ConsoleError msg).
Definition console_log (args : list string) : Task unit := emit (ConsoleLog args).

(** [fs.writeFile]: the file's contents are replaced.  (A write the
    operating system refuses is outside the model.) *)
Definition fs_writeFile (path content : string) : Task unit := fun w =>
  (Normal tt, {| files := <[path := content]> (files w);
                 trace := trace w ++ [FileWritten path content] |}).

(** The disk writes among some events, oldest first. *)
Definition writes (evs : list Event) : list (string * string) :=
  omap (fun e => match e with FileWritten p c => Some (p, c) | _ => None end) evs.

(** ** The ts-morph structures the plugin fills in *)

Record ImportDeclarationStructure : Type := {
  namedImports : list string;
  moduleSpecifier : string;
  isTypeOnly : bool
}.

Inductive VariableDeclarationKind : Type := Const | Let | Var.

Record VariableDeclarationStructure : Type := {
  name : string;
  initializer : string;
  type : string
}.

Record VariableStatementStructure : Type := {
  declarationKind : VariableDeclarationKind;
  declarations : list VariableDeclarationStructure;
  isExported : bool
}.

Inductive Statement : Type :=
| ImportDeclaration (s : ImportDeclarationStructure)
| VariableStatement (s : VariableStatementStructure).

(** A ts-morph source file created from a text of line comments, as the
    plugin's is, top to bottom: the statements ts-morph has put above that
    text, the text, and the statements it has put below it.  How each part
    is spelled as text is ts-morph's business ([getFullText] below). *)
Record SourceFile : Type := {
  filePath : string;
  leading : list Statement;
  initialText : string;
  trailing : list Statement
}.

(** [project.createSourceFile(path, text, { overwrite: true })] on a fresh
    [Project]: an in-memory file, whatever the disk holds at [path]. *)
Definition createSourceFile (path text : string) : SourceFile :=
  {| filePath := path; leading := []; initialText := text; trailing := [] |}.

(** [sourceFile.addImportDeclaration]: ts-morph inserts an import
    declaration after the last import declaration of the file and, in a file
    that has none, at the very top, above the line comments the file starts
    with (only block comments that open a file stay above an import). *)
Definition addImportDeclaration (s : ImportDeclarationStructure) (sf : SourceFile)
  : SourceFile :=
  {| filePath := filePath sf;
     leading := leading sf ++ [ImportDeclaration s];
     initialText := initialText sf;
     trailing := trailing sf |}.

(** [sourceFile.addVariableStatement]: the statement goes to the end of the
    file. *)
Definition addVariableStatement (s : VariableStatementStructure) (sf : SourceFile)
  : SourceFile :=
  {| filePath := filePath sf;
     leading := leading sf;
     initialText := initialText sf;
     trailing := trailing sf ++ [VariableStatement s] |}.

(** A part of a source file: a statement, or text it was created with. *)
Inductive Part : Type :=
| StatementPart (st : Statement)
| TextPart (text : string).

(** The parts of a source file from top to bottom. *)
Definition layout (sf : SourceFile) : list Part :=
  (StatementPart <$> leading sf) ++ [TextPart (initialText sf)]
  ++ (StatementPart <$> trailing sf).

(** The text of a source file whose statements are spelled by
    [printStatement], the parts written one after the other. *)
Definition flatten (printStatement : Statement → string) (sf : SourceFile) : string :=
  String.concat EmptyString
    ((λ part, match part with
              | StatementPart st => printStatement st
              | TextPart text => text
              end) <$> layout sf).

(** ** The environment *)

(** [process.env] once [dotenv.config()] has run. *)
Abbreviation Env := (gmap string string).

(** [!process.env[key]]: the variable is unset or empty. *)
Definition envMissing (env : Env) (key : string) : bool :=
  match env !! key with
  | None => true
  | Some s => bool_decide (s = EmptyString)
  end.

(** [process.env[key] || '']. *)
Definition envOrEmpty (env : Env) (key : string) : string :=
  match env !! key with
  | None => EmptyString
  | Some s => if bool_decide (s = EmptyString) then EmptyString else s
  end.

Definition pluginName : string := "generateEventIndexerConfig".

(** [const skip = process.env.SKIP_ENV_VALDIATION === 'true'], evaluated once,
    when the module is loaded. *)
Definition skip (moduleEnv : Env) : bool :=
  bool_decide (moduleEnv !! "SKIP_ENV_VALDIATION" = Some "true").

Definition newline : string := String (ascii_of_nat 10) EmptyString.

(** The variable statement both branches of [buildEventIndexerConfig] add;
    they differ in the initializer only. *)
Definition configVariable (init : string) : VariableStatementStructure :=
  {| declarationKind := Const;
     declarations :=
       [ {| name := "configuredEventIndexer";
            initializer := init;
            type := "EventIndexerConfig[]" |} ];
     isExported := true |}.

(** ** Vocabulary of the statements *)

(** A run-time value read as a typed entry: reading its [chainIds] gives
    the array of the entry's chain identifiers ([undefined] when the entry
    has none) and reading its [url] gives the entry's URL.  Further
    properties are allowed. *)
Definition represents (v : Value) (c : EventIndexerConfig) : Prop :=
  Get v "chainIds"
  = Normal (match chainIds c with
            | Some ids => VArray (number <$> ids)
            | None => VUndefined
            end)
  ∧ Get v "url" = Normal (VString (url c)).

(** What the formatter looks at in an entry: the texts of its chain
    identifiers (none when the property is absent) and its URL. *)
Record EntryShape : Type := {
  idTexts : option (list string);
  urlText : string
}.

(** A run-time value with that shape: its [chainIds] reads as the array of
    the numbers with those texts ([undefined] when there is none) and its
    [url] as that string.  Further properties are allowed. *)
Definition shaped (v : Value) (sh : EntryShape) : Prop :=
  Get v "chainIds"
  = Normal (match idTexts sh with
            | Some texts => VArray (VNumber <$> texts)
            | None => VUndefined
            end)
  ∧ Get v "url" = Normal (VString (urlText sh)).

(** The rendering the specification describes, for any numbers: their
    texts with a comma and a space between neighbours ([String.concat] is
    the library's own), between brackets, then the URL between double
    quotes. *)
Definition entryText (sh : EntryShape) : string :=
  "{chainIds: [" +:+ String.concat ", " (default [] (idTexts sh))
  +:+ "], url: " +:+ dquote +:+ urlText sh +:+ dquote +:+ "}".

(** The shape of a typed entry. *)
Definition shapeOf (c : EventIndexerConfig) : EntryShape :=
  {| idTexts := match chainIds c with
                | Some ids => Some (decimal <$> ids)
                | None => None
                end;
     urlText := url c |}.

(** The part of a rendered entry that precedes the quoted URL. *)
Definition entryPrefix (ids : list Z) : string :=
  "{chainIds: [" +:+ String.concat ", " (decimal <$> ids) +:+ "], url: ".

(** The rendering the specification describes: the chain identifiers
    joined by comma-space between brackets (nothing when absent), then the
    URL between double quotes. *)
Definition renderedEntry (c : EventIndexerConfig) : string :=
  "{chainIds: [" +:+ String.concat ", " (decimal <$> default [] (chainIds c))
  +:+ "], url: " +:+ dquote +:+ url c +:+ dquote +:+ "}".

(** The two comment lines the source file is created with. *)
Definition header (now : string) : string :=
  "// Generated by generateEventIndexerConfig on " +:+ now +:+ newline
  +:+ "// WARNING: Do not change this file manually as it will be overwritten"
  +:+ newline.

(** The type-only import of [EventIndexerConfig]. *)
Definition typeImport : Statement :=
  ImportDeclaration
    {| namedImports := ["EventIndexerConfig"];
       moduleSpecifier := "$libs/eventIndexer";
       isTypeOnly := true |}.

(** The exported constant [configuredEventIndexer : EventIndexerConfig[]]
    with initializer [init]. *)
Definition exportedConstant (init : string) : Statement :=
  VariableStatement
    {| declarationKind := Const;
       declarations :=
         [ {| name := "configuredEventIndexer";
              initializer := init;
              type := "EventIndexerConfig[]" |} ];
       isExported := true |}.

(** The generated module, top to bottom: the type-only import, the two
    comment lines of the header, the exported constant. *)
Definition generatedModule (path now init : string) : SourceFile :=
  {| filePath := path;
     leading := [typeImport];
     initialText := header now;
     trailing := [exportedConstant init] |}.


(** The world after some more events, the disk untouched. *)
Definition logged (evs : list Event) (w : World) : World :=
  {| files := files w; trace := trace w ++ evs |}.

(** The log lines of a run that gets as far as building the constant. *)
Definition buildLog : list Event :=
  [ LoggerInfo "Plugin initialized.";
    LoggerInfo "Storing types...";
    LoggerInfo "Types stored.";
    LoggerInfo "Building event indexer config...";
    LoggerInfo "EventIndexer config built." ].

(** The log lines of a run that stops inside [buildEventIndexerConfig]. *)
Definition stoppedLog : list Event :=
  [ LoggerInfo "Plugin initialized.";
    LoggerInfo "Storing types...";
    LoggerInfo "Types stored.";
    LoggerInfo "Building event indexer config..." ].

(** Between [w] and [w'] nothing was written: the disk is the same and the
    events that were added contain no write. *)
Definition noWrite (w w' : World) : Prop :=
  files w' = files w ∧ ∃ evs, trace w' = trace w ++ evs ∧ writes evs = [].

(** The text [console.error] prints when the field is not an array. *)
Definition notAnArray : string :=
  "configuredEventIndexer is not an array. Please check the content of the configuredEventIndexerConfigFile.".

(** ** The plugin *)

Section Plugin.

(** The helpers the plugin imports from [scripts/utils], the schema it
    imports from [config/schemas] and the libraries it calls lie outside
    the plugin's source file; the plugin is modelled over any of them. *)

(** [decodeBase64ToJson]: the decoded payload, or what decoding throws. *)
Variable decodeBase64ToJson : string → Completion Value.

(** [validateJsonAgainstSchema] and the schema handed to it. *)
Variable Schema : Type.
Variable configuredEventIndexerSchema : Schema.
Variable validateJsonAgainstSchema : Value → Schema → bool.

(** ts-morph's printing of a source file ([save] writes this text). *)
Variable getFullText : SourceFile → string.

(** The code formatter behind [formatSourceFile]. *)
Variable format : string → Completion string.

(** [path.resolve] and the module-level [outputPath]. *)
Variable path_resolve : string → string.
Variable outputPath : string.

(** [process.env] at the time the module was loaded; it fixes [skip]. *)
Variable moduleEnv : Env.

(** [sourceFile.save()]. *)
Definition save (sourceFile : SourceFile) : Task unit :=
  fs_writeFile (filePath sourceFile) (getFullText sourceFile).

(** Modelled from the spec: [formatSourceFile] of
    [scripts/utils/formatSourceFile] is missing from the sources; by the
    specification "the assembled text is saved, then passed through a
    formatter", so it reads the saved file back and returns what the
    formatter makes of it. *)
Definition formatSourceFile (path : string) : Task string := fun w =>
  match files w !! path with
  | Some text => (format text, w)
  | None => (Throw (Raised "ENOENT"), w)
  end.

Definition storeTypesAndEnums (sourceFile : SourceFile) : Task SourceFile :=
  logger_info "Storing types...";;
  let sourceFile :=
    addImportDeclaration
      {| namedImports := ["EventIndexerConfig"];
         moduleSpecifier := "$libs/eventIndexer";
         isTypeOnly := true |} sourceFile in
  logger_info "Types stored.";;
  mret sourceFile.

Definition buildEventIndexerConfig
    (sourceFile : SourceFile) (configuredEventIndexerConfigFile : Value)
  : Task SourceFile :=
  logger_info "Building event indexer config...";;
  let indexer := configuredEventIndexerConfigFile in
  sourceFile ←
    (if negb (skip moduleEnv) then
       present ← lift (Get indexer "configuredEventIndexer");
       malformed ←
         (if negb (ToBoolean present) then mret true
          else
            again ← lift (Get indexer "configuredEventIndexer");
            mret (negb (isArray again)));
       if (malformed : bool) then
         console_error
           "configuredEventIndexer is not an array. Please check the content of the configuredEventIndexerConfigFile.";;
         throw (Error EmptyString)
       else
         entries ← lift (Get indexer "configuredEventIndexer");
         literal ← lift (_formatObjectToTsLiteral entries);
         mret (addVariableStatement (configVariable literal) sourceFile)
     else
       mret (addVariableStatement (configVariable "[]") sourceFile));
  logger_info "EventIndexer config built.";;
  mret sourceFile.

(** The [buildStart] hook.  [env] is [process.env] when the hook runs and
    [now] is what [new Date().toLocaleString()] returns. *)
Definition buildStart (env : Env) (now : string) : Task unit :=
  logger_info "Plugin initialized.";;
  configuredEventIndexerConfigFile ←
    (if skip moduleEnv then mret (VString EmptyString)
     else
       (if envMissing env "CONFIGURED_EVENT_INDEXER" then
          throw (Error
            "CONFIGURED_EVENT_INDEXER is not defined in environment. Make sure to run the export step in the documentation.")
        else mret tt);;
       decoded ← lift (decodeBase64ToJson (envOrEmpty env "CONFIGURED_EVENT_INDEXER"));
       let isValid := validateJsonAgainstSchema decoded configuredEventIndexerSchema in
       (if negb isValid then
          throw (Error "encoded configuredEventIndexer.json is not valid.")
        else mret tt);;
       mret decoded);
  let tsFilePath := path_resolve outputPath in
  let notification := "// Generated by " +:+ pluginName +:+ " on " +:+ now in
  let warning := "// WARNING: Do not change this file manually as it will be overwritten" in
  let sourceFile :=
    createSourceFile tsFilePath (notification +:+ newline +:+ warning +:+ newline) in
  sourceFile ← storeTypesAndEnums sourceFile;
  sourceFile ← buildEventIndexerConfig sourceFile configuredEventIndexerConfigFile;
  save sourceFile;;
  formatted ← formatSourceFile tsFilePath;
  console_log ["formatted"; tsFilePath];;
  fs_writeFile tsFilePath formatted;;
  logger_info ("Formatted config file saved to " +:+ tsFilePath).

(** The statements of [buildStart] from [save] on, for a source file
    built at [tsFilePath]: save, format, write back. *)
Definition persist (tsFilePath : string) (sourceFile : SourceFile) : Task unit :=
  save sourceFile;;
  formatted ← formatSourceFile tsFilePath;
  console_log ["formatted"; tsFilePath];;
  fs_writeFile tsFilePath formatted;;
  logger_info ("Formatted config file saved to " +:+ tsFilePath).

(** Where the initializer of a successful run comes from: the empty
    array in skip mode, the formatted [configuredEventIndexer] of the
    decoded and validated payload otherwise. *)
Definition initializerOf (env : Env) (init : string) : Prop :=
  if skip moduleEnv then init = "[]"
  else ∃ s v field,
      env !! "CONFIGURED_EVENT_INDEXER" = Some s ∧ s ≠ EmptyString
      ∧ decodeBase64ToJson s = Normal v
      ∧ validateJsonAgainstSchema v configuredEventIndexerSchema = true
      ∧ Get v "configuredEventIndexer" = Normal field
      ∧ isArray field = true
      ∧ _formatObjectToTsLiteral field = Normal init.

End Plugin.

(** ** A sample host

    Concrete stand-ins for the helpers and libraries, used to run the hook
    on examples. *)
Module Sample.

Definition entryA : EventIndexerConfig :=
  {| chainIds := Some [1; 10]%Z; url := "https://x.test" |}.
Definition entryB : EventIndexerConfig :=
  {| chainIds := Some []; url := "https://y.test" |}.

(** An entry whose URL holds two double quotes: [https://z.test/?q="a"]. *)
Definition entryQ : EventIndexerConfig :=
  {| chainIds := Some [167000]%Z;
     url := "https://z.test/?q=" +:+ dquote +:+ "a" +:+ dquote |}.

(** [{"configuredEventIndexer":[{"chainIds":[1,10],"url":"https://x.test"},{"chainIds":[],"url":"https://y.test"}]}] *)
Definition goodPayload : Value :=
  VObject {["configuredEventIndexer" := VArray [entryValue entryA; entryValue entryB]]}.
Definition goodEncoded : string :=
  "eyJjb25maWd1cmVkRXZlbnRJbmRleGVyIjpbeyJjaGFpbklkcyI6WzEsMTBdLCJ1cmwiOiJodHRwczovL3gudGVzdCJ9LHsiY2hhaW5JZHMiOltdLCJ1cmwiOiJodHRwczovL3kudGVzdCJ9XX0=".


(** [{"configuredEventIndexer":"none"}] *)
Definition stringPayload : Value :=
  VObject {["configuredEventIndexer" := VString "none"]}.
Definition stringEncoded : string :=
  "eyJjb25maWd1cmVkRXZlbnRJbmRleGVyIjoibm9uZSJ9".

(** [{"indexers":[]}] *)
Definition otherPayload : Value := VObject {["indexers" := VArray []]}.
Definition otherEncoded : string := "eyJpbmRleGVycyI6W119".

(** A decoder that knows the three payloads above. *)
Definition decode (s : string) : Completion Value :=
  if bool_decide (s = goodEncoded) then Normal goodPayload
  else if bool_decide (s = stringEncoded) then Normal stringPayload
  else if bool_decide (s = otherEncoded) then Normal otherPayload
  else Throw (Raised "SyntaxError").

Definition isNumber (v : Value) : bool :=
  match v with VNumber _ => true | _ => false end.

Definition validEntry (v : Value) : bool :=
  match v with
  | VObject props =>
      match props !! "chainIds", props !! "url" with
      | Some (VArray ids), Some (VString _) => forallb isNumber ids
      | _, _ => false
      end
  | _ => false
  end.

(** The shape the schema asks for: an object whose
    [configuredEventIndexer] is an array of entries with chain identifiers
    and a URL. *)
Definition strict (v : Value) (_ : unit) : bool :=
  match v with
  | VObject props =>
      match props !! "configuredEventIndexer" with
      | Some (VArray entries) => forallb validEntry entries
      | _ => false
      end
  | _ => false
  end.

(** A validator that asks for nothing. *)
Definition lenient (_ : Value) (_ : unit) : bool := true.

(** A stand-in for ts-morph's spelling of a statement: one statement, one
    line. *)
Definition printStatement (st : Statement) : string :=
  match st with
  | ImportDeclaration i =>
      "import " +:+ (if isTypeOnly i then "type " else EmptyString)
      +:+ "{ " +:+ joinStrings ", " (namedImports i) +:+ " } from "
      +:+ dquote +:+ moduleSpecifier i +:+ dquote +:+ ";" +:+ newline
  | VariableStatement v =>
      (if isExported v then "export " else EmptyString)
      +:+ match declarationKind v with
          | Const => "const "
          | Let => "let "
          | Var => "var "
          end
      +:+ joinStrings ", "
            ((λ d, name d +:+ ": " +:+ type d +:+ " = " +:+ initializer d)
               <$> declarations v)
      +:+ ";" +:+ newline
  end.

(** A stand-in for ts-morph's printing: the parts from top to bottom, so
    the import comes out above the comment lines the file was created
    with. *)
Definition print (sf : SourceFile) : string := flatten printStatement sf.

Definition tidy (text : string) : Completion string := Normal text.

Definition out : string := "/bridge-ui/src/generated/eventIndexerConfig.ts".

Definition blank : World := {| files := ∅; trace := [] |}.

Definition skipping : Env := {["SKIP_ENV_VALDIATION" := "true"]}.

Definition clock : string := "8/14/2024, 9:30:00 AM".

(** The hook over this host, with the strict and with the lenient
    validator. *)
Definition hook (moduleEnv env : Env) : Task unit :=
  buildStart decode unit tt strict print tidy id out moduleEnv env clock.
Definition lenientHook (moduleEnv env : Env) : Task unit :=
  buildStart decode unit tt lenient print tidy id out moduleEnv env clock.

Definition configured (s : string) : Env := {["CONFIGURED_EVENT_INDEXER" := s]}.

End Sample.

(** ** The plugin object *)

Module Vite.

(** The part of a Vite plugin this file fills in: its name and its
    [buildStart] hook. *)
Record Plugin : Type := {
  name : string;
  buildStart : Env → string → Task unit
}.

End Vite.

Section PluginObject.

Variable decodeBase64ToJson : string → Completion Value.
Variable Schema : Type.
Variable configuredEventIndexerSchema : Schema.
Variable validateJsonAgainstSchema : Value → Schema → bool.
Variable getFullText : SourceFile → string.
Variable format : string → Completion string.
Variable path_resolve : string → string.
Variable outputPath : string.
Variable moduleEnv : Env.

(** [generateEventIndexerConfig()]: the object handed to Vite. *)
Definition generateEventIndexerConfig : Vite.Plugin :=
  {| Vite.name := pluginName;
     Vite.buildStart :=
       buildStart decodeBase64ToJson Schema configuredEventIndexerSchema
         validateJsonAgainstSchema getFullText format path_resolve outputPath
         moduleEnv |}.

End PluginObject.

(** ** Vocabulary for reading a literal back *)

(** The character [c] occurs in [s]. *)
Fixpoint mentions (c : ascii) (s : string) : bool :=
  match s with
  | EmptyString => false
  | String x rest => Ascii.eqb c x || mentions c rest
  end.

(** [c] is one of the characters a printed integer is made of. *)
Definition numeric (c : ascii) : bool := mentions c "0123456789-".

(** No double quote occurs in [s]. *)
Definition quoteFree (s : string) : Prop := mentions (ascii_of_nat 34) s = false.

(** Two typed entries that differ at most in having no chain identifiers
    against an empty list of them. *)
Definition sameEntry (c c' : EventIndexerConfig) : Prop :=
  default [] (chainIds c) = default [] (chainIds c') ∧ url c = url c'.

(** An entry whose URL closes its own literal and opens a second one: the
    URL [u1"}, {chainIds: [ids2], url: "u2]. *)
Definition smuggling (ids1 : list Z) (u1 : string) (ids2 : list Z) (u2 : string)
  : EventIndexerConfig :=
  {| chainIds := Some ids1;
     url := u1 +:+ dquote +:+ "}, " +:+ entryPrefix ids2 +:+ dquote +:+ u2 |}.

(** ** More hosts to run the hook on *)
Module Probe.

(** A decoder that answers with a given payload, whatever the text. *)
Definition decodeTo (v : Value) (_ : string) : Completion Value := Normal v.

(** A decoder that rejects everything. *)
Definition undecodable (_ : string) : Completion Value := Throw (Raised "SyntaxError").

(** A formatter that gives up on every text. *)
Definition choking (_ : string) : Completion string := Throw (Raised "SyntaxError").

(** [{"configuredEventIndexer":[{"chainIds":[1,10],"url":"https://x.test"},null]}] *)
Definition holedPayload : Value :=
  VObject {["configuredEventIndexer" := VArray [entryValue Sample.entryA; VNull]]}.

(** [{"configuredEventIndexer":[]}] *)
Definition emptyPayload : Value :=
  VObject {["configuredEventIndexer" := VArray []]}.

(** The hook over a host with a decoder answering [v], the lenient
    validator and formatter [fmt], outside skip mode. *)
Definition hook (v : Value) (fmt : string → Completion string) : Task unit :=
  buildStart (decodeTo v) unit tt Sample.lenient Sample.print fmt id Sample.out ∅
    (Sample.configured "e30=") Sample.clock.

End Probe.

(** * Properties *)

(** ** Strings *)

Lemma append_assoc (a b c : string) : (a +:+ b) +:+ c = a +:+ (b +:+ c).
Proof.
  induction a as [|x a IH]; [reflexivity|].
  change (String x ((a +:+ b) +:+ c) = String x (a +:+ b +:+ c)).
  f_equal. exact IH.
Qed.

Lemma length_append (a b : string) :
  String.length (a +:+ b) = String.length a + String.length b.
Proof.
  induction a as [|x a IH]; [reflexivity|].
  change (S (String.length (a +:+ b)) = S (String.length a + String.length b)).
  f_equal. exact IH.
Qed.

(** ** The literal formatter *)

(** The model of [Array.prototype.join] puts the parts together as the
    library's [String.concat] does. *)
Lemma joinStrings_concat (sep : string) (parts : list string) :
  joinStrings sep parts = String.concat sep parts.
Proof.
  induction parts as [|p parts IH]; [reflexivity|].
  destruct parts as [|q parts]; [reflexivity|].
  change (p +:+ sep +:+ joinStrings sep (q :: parts)
          = p +:+ sep +:+ String.concat sep (q :: parts)).
  rewrite IH. reflexivity.
Qed.

Lemma mapCompletion_numbers (texts : list string) :
  mapCompletion elementToString (VNumber <$> texts) = Normal texts.
Proof.
  induction texts as [|t texts IH]; [reflexivity|].
  rewrite fmap_cons. simpl. rewrite IH. reflexivity.
Qed.

Lemma Array_join_numbers (sep : string) (texts : list string) :
  Array_join sep (VNumber <$> texts) = Normal (String.concat sep texts).
Proof.
  unfold Array_join. rewrite mapCompletion_numbers. simpl.
  rewrite joinStrings_concat. reflexivity.
Qed.

Lemma number_fmap (ids : list Z) : number <$> ids = VNumber <$> (decimal <$> ids).
Proof. unfold number. rewrite <- list_fmap_compose. reflexivity. Qed.

(** [ToString] of an array is [join] with a comma. *)
Lemma ToString_array (elems : list Value) :
  ToString (VArray elems) = Array_join "," elems.
Proof.
  unfold Array_join. simpl.
  match goal with |- ?e ≫= _ = _ => assert (e = mapCompletion elementToString elems) as -> end;
    [|reflexivity].
  induction elems as [|e elems IH]; [reflexivity|].
  simpl. rewrite IH. destruct e; reflexivity.
Qed.

Lemma entryValue_represents (c : EventIndexerConfig) : represents (entryValue c) c.
Proof.
  destruct c as [[ids|] u]; unfold represents, entryValue; simpl; split; reflexivity.
Qed.

(** On a value with the shape of an entry the formatter returns, and what
    it returns is the rendering the specification describes. *)
Lemma format_shaped (v : Value) (sh : EntryShape) :
  shaped v sh →
  _formatEventIndexerConfigToTsLiteral v = Normal (entryText sh).
Proof.
  intros [Hids Hurl]. unfold _formatEventIndexerConfigToTsLiteral, entryText.
  rewrite Hids, Hurl. destruct (idTexts sh) as [texts|]; simpl.
  - rewrite Array_join_numbers. reflexivity.
  - reflexivity.
Qed.

Lemma represents_shaped (v : Value) (c : EventIndexerConfig) :
  represents v c → shaped v (shapeOf c).
Proof.
  intros [Hids Hurl]. split; [|exact Hurl].
  rewrite Hids. unfold shapeOf. simpl.
  destruct (chainIds c) as [ids|]; [rewrite number_fmap|]; reflexivity.
Qed.

Lemma entryText_shapeOf (c : EventIndexerConfig) : entryText (shapeOf c) = renderedEntry c.
Proof. unfold entryText, shapeOf, renderedEntry. simpl. destruct (chainIds c); reflexivity. Qed.

(** On a value that reads as a typed entry the formatter returns, and what
    it returns is the rendering the specification describes. *)
Lemma format_represents (v : Value) (c : EventIndexerConfig) :
  represents v c →
  _formatEventIndexerConfigToTsLiteral v = Normal (renderedEntry c).
Proof.
  intros Hv. rewrite (format_shaped v _ (represents_shaped v c Hv)).
  rewrite entryText_shapeOf. reflexivity.
Qed.

Lemma mapCompletion_Normal_length {A B : Type} (f : A → Completion B) l out :
  mapCompletion f l = Normal out → length out = length l.
Proof.
  revert out. induction l as [|x l IH]; intros out; simpl.
  - intros [= <-]. reflexivity.
  - destruct (f x) as [y|]; simpl; [|discriminate].
    destruct (mapCompletion f l) as [ys|]; simpl; [|discriminate].
    intros [= <-]. simpl. f_equal. apply IH. reflexivity.
Qed.

Lemma mapCompletion_Normal_lookup {A B : Type} (f : A → Completion B) l out :
  mapCompletion f l = Normal out →
  ∀ i x, l !! i = Some x → ∃ y, out !! i = Some y ∧ f x = Normal y.
Proof.
  revert out. induction l as [|x0 l IH]; intros out; simpl.
  - intros _ i x Hi. destruct i; discriminate.
  - destruct (f x0) as [y0|] eqn:E0; simpl; [|discriminate].
    destruct (mapCompletion f l) as [ys|]; simpl; [|discriminate].
    intros [= <-] [|i] x Hi; simpl in *.
    + injection Hi as <-. eauto.
    + eapply IH; eauto.
Qed.

Lemma mapCompletion_shaped (elems : list Value) (shapes : list EntryShape) :
  Forall2 shaped elems shapes →
  mapCompletion _formatEventIndexerConfigToTsLiteral elems
  = Normal (entryText <$> shapes).
Proof.
  induction 1 as [|v sh elems shapes Hv _ IH]; simpl; [reflexivity|].
  rewrite (format_shaped v sh Hv), IH. reflexivity.
Qed.

Lemma mapCompletion_represents (elems : list Value) (entries : list EventIndexerConfig) :
  Forall2 represents elems entries →
  mapCompletion _formatEventIndexerConfigToTsLiteral elems
  = Normal (renderedEntry <$> entries).
Proof.
  induction 1 as [|v c elems entries Hvc _ IH]; simpl; [reflexivity|].
  rewrite (format_represents v c Hvc), IH. reflexivity.
Qed.

(** X17.  Whatever the elements are, a literal that gets built is an
    opening bracket, one rendering per element of the array with a comma and
    a space between neighbours ([String.concat] is the library's own), and a
    closing bracket; the rendering at each index is the formatter's for the
    element at that index. *)
Lemma literal_one_per_element (elems : list Value) (literal : string) :
  _formatObjectToTsLiteral (VArray elems) = Normal literal →
  ∃ rendered,
    literal = "[" +:+ String.concat ", " rendered +:+ "]"
    ∧ length rendered = length elems
    ∧ (∀ i x, elems !! i = Some x →
         ∃ y, rendered !! i = Some y ∧ _formatEventIndexerConfigToTsLiteral x = Normal y)
    ∧ (∀ i y, rendered !! i = Some y →
         ∃ x, elems !! i = Some x ∧ _formatEventIndexerConfigToTsLiteral x = Normal y).
Proof.
  simpl.
  destruct (mapCompletion _formatEventIndexerConfigToTsLiteral elems)
    as [rendered|e] eqn:Hmap; simpl; [|discriminate].
  intros H. apply (f_equal (λ r, match r with Normal a => a | Throw _ => EmptyString end)) in H.
  simpl in H. subst literal.
  pose proof (mapCompletion_Normal_length _ _ _ Hmap) as Hlen.
  pose proof (mapCompletion_Normal_lookup _ _ _ Hmap) as Hlook.
  exists rendered. split; [rewrite joinStrings_concat; reflexivity|].
  split; [exact Hlen|]. split; [exact Hlook|].
  intros i y Hi.
  destruct (elems !! i) as [x|] eqn:Hx.
  - destruct (Hlook i x Hx) as (y' & Hy' & Hfmt).
    exists x. split; [reflexivity|]. congruence.
  - apply lookup_ge_None in Hx. apply lookup_lt_Some in Hi. lia.
Qed.

Lemma renderedEntry_prefix (c : EventIndexerConfig) :
  renderedEntry c
  = entryPrefix (default [] (chainIds c)) +:+ dquote +:+ url c +:+ dquote +:+ "}".
Proof.
  unfold renderedEntry, entryPrefix. rewrite !append_assoc. reflexivity.
Qed.

(** C4.  An entry with chain identifiers [n1, n2, ...] and URL [u] is
    rendered as exactly [{chainIds: [n1, n2, ...], url: "u"}], the numbers
    joined by comma-space.  This holds of numbers of any kind, each written
    as its text; for integers in the safe range the text is the decimal
    digits; for [[1, 10]] and [https://x.test] the rendering is
    [{chainIds: [1, 10], url: "https://x.test"}]. *)
Theorem format_entry_exact :
  (∀ (v : Value) (texts : list string) (u : string),
     shaped v {| idTexts := Some texts; urlText := u |} →
     _formatEventIndexerConfigToTsLiteral v
     = Normal ("{chainIds: [" +:+ String.concat ", " texts
               +:+ "], url: " +:+ dquote +:+ u +:+ dquote +:+ "}"))
  ∧ (∀ (v : Value) (ns : list Z) (u : string),
       Forall safeInteger ns →
       represents v {| chainIds := Some ns; url := u |} →
       _formatEventIndexerConfigToTsLiteral v
       = Normal ("{chainIds: [" +:+ String.concat ", " (decimal <$> ns)
                 +:+ "], url: " +:+ dquote +:+ u +:+ dquote +:+ "}"))
  ∧ (∀ v : Value,
       represents v {| chainIds := Some [1; 10]%Z; url := "https://x.test" |} →
       _formatEventIndexerConfigToTsLiteral v
       = Normal ("{chainIds: [1, 10], url: " +:+ dquote +:+ "https://x.test"
                 +:+ dquote +:+ "}")).
Proof.
  split; [|split].
  - intros v texts u Hv. exact (format_shaped v _ Hv).
  - intros v ns u _ Hv. exact (format_represents v _ Hv).
  - intros v Hv. rewrite (format_represents v _ Hv). reflexivity.
Qed.

Lemma format_entry_exact_witness :
  _formatEventIndexerConfigToTsLiteral (entryValue Sample.entryA)
  = Normal ("{chainIds: [1, 10], url: " +:+ dquote +:+ "https://x.test" +:+ dquote +:+ "}")
  ∧ _formatEventIndexerConfigToTsLiteral
      (VObject (<["chainIds" := VArray [VNumber "18446744073709552000"; VNumber "1.5"]]>
                  {["url" := VString "https://x.test"]}))
    = Normal ("{chainIds: [18446744073709552000, 1.5], url: " +:+ dquote
              +:+ "https://x.test" +:+ dquote +:+ "}").
Proof.
  destruct format_entry_exact as (Hany & _ & Hsample). split.
  - apply Hsample. apply (entryValue_represents Sample.entryA).
  - apply (Hany _ ["18446744073709552000"; "1.5"] "https://x.test").
    split; reflexivity.
Defined.

(** C7.  An entry whose chain identifiers are absent, or are the empty
    array, is rendered with an empty bracket:
    [{chainIds: [], url: "<url>"}]. *)
Theorem format_entry_no_chain_ids (v : Value) (c : EventIndexerConfig) :
  represents v c →
  chainIds c = None ∨ chainIds c = Some [] →
  _formatEventIndexerConfigToTsLiteral v
  = Normal ("{chainIds: [], url: " +:+ dquote +:+ url c +:+ dquote +:+ "}").
Proof.
  intros Hv Hids. rewrite (format_represents v c Hv). unfold renderedEntry.
  destruct Hids as [-> | ->]; reflexivity.
Qed.

Lemma format_entry_no_chain_ids_witness :
  _formatEventIndexerConfigToTsLiteral
    (VObject {["url" := VString "https://y.test"]})
  = Normal ("{chainIds: [], url: " +:+ dquote +:+ "https://y.test" +:+ dquote +:+ "}")
  ∧ _formatEventIndexerConfigToTsLiteral (entryValue Sample.entryB)
    = Normal ("{chainIds: [], url: " +:+ dquote +:+ "https://y.test" +:+ dquote +:+ "}").
Proof.
  split.
  - apply (format_entry_no_chain_ids _ {| chainIds := None; url := "https://y.test" |}).
    + split; reflexivity.
    + left. reflexivity.
  - apply (format_entry_no_chain_ids _ Sample.entryB).
    + apply entryValue_represents.
    + right. reflexivity.
Defined.

(** C8.  The URL is put between two double quotes as it is: the rendering
    is the bracket part, a double quote, the URL's characters unchanged and
    in place, a double quote and the closing brace, and nothing more, so a
    double quote inside the URL is not escaped. *)
Theorem url_embedded_verbatim (v : Value) (c : EventIndexerConfig) :
  represents v c →
  ∃ out,
    _formatEventIndexerConfigToTsLiteral v = Normal out
    ∧ out = entryPrefix (default [] (chainIds c)) +:+ dquote +:+ url c +:+ dquote +:+ "}"
    ∧ String.length out
      = String.length (entryPrefix (default [] (chainIds c))) + String.length (url c) + 3
    ∧ ∀ i, i < String.length (url c) →
        String.get (String.length (entryPrefix (default [] (chainIds c))) + 1 + i) out
        = String.get i (url c).
Proof.
  intros Hv. exists (renderedEntry c).
  split; [exact (format_represents v c Hv)|].
  split; [apply renderedEntry_prefix|].
  rewrite renderedEntry_prefix. set (pre := entryPrefix _).
  split.
  - rewrite !length_append. simpl. lia.
  - intros i Hi.
    rewrite <- (append_assoc pre dquote).
    replace (String.length pre + 1 + i)
      with (i + String.length (pre +:+ dquote))
      by (rewrite length_append; simpl; lia).
    rewrite <- String.append_correct2.
    symmetry. apply String.append_correct1. exact Hi.
Qed.

(** ** The hook *)

Lemma envMissing_iff (env : Env) (key : string) :
  envMissing env key = true ↔ env !! key = None ∨ env !! key = Some EmptyString.
Proof.
  unfold envMissing. destruct (env !! key) as [s|].
  - rewrite bool_decide_eq_true. split.
    + intros ->. right. reflexivity.
    + intros [H|H]; congruence.
  - split; [left; reflexivity | reflexivity].
Qed.

Lemma env_present (env : Env) (key s : string) :
  env !! key = Some s → s ≠ EmptyString →
  envMissing env key = false ∧ envOrEmpty env key = s.
Proof.
  intros H Hs. unfold envMissing, envOrEmpty. rewrite H.
  rewrite (bool_decide_eq_false_2 _ Hs). split; reflexivity.
Qed.

(** Running the plumbing of a task: binds, log lines, and the trace put
    back in the shape [trace w ++ events]. *)
Ltac run_task :=
  unfold persist, save, formatSourceFile, fs_writeFile, console_log, console_error,
    logger_info, emit, throw, lift, logged, buildLog, mbind, mret, Task_bind, Task_ret;
  simpl;
  rewrite <- ?app_assoc;
  simpl.

Lemma skip_true_iff (moduleEnv : Env) :
  skip moduleEnv = true ↔ moduleEnv !! "SKIP_ENV_VALDIATION" = Some "true".
Proof. unfold skip. apply bool_decide_eq_true. Qed.

Ltac settle := unfold stoppedLog; simpl; rewrite <- ?app_assoc; reflexivity.

Section Facts.

Context (decodeBase64ToJson : string → Completion Value)
        (Schema : Type) (configuredEventIndexerSchema : Schema)
        (validateJsonAgainstSchema : Value → Schema → bool)
        (getFullText : SourceFile → string)
        (format : string → Completion string)
        (path_resolve : string → string) (outputPath : string)
        (moduleEnv : Env).

Local Abbreviation hook :=
  (buildStart decodeBase64ToJson Schema configuredEventIndexerSchema
     validateJsonAgainstSchema getFullText format path_resolve outputPath moduleEnv).
Local Abbreviation tsFilePath := (path_resolve outputPath).
Local Abbreviation persisting := (persist getFullText format).
Local Abbreviation initializerHere :=
  (initializerOf decodeBase64ToJson Schema configuredEventIndexerSchema
     validateJsonAgainstSchema moduleEnv).

(** What saving, formatting and writing back amount to. *)
Lemma persist_run (path : string) (sf : SourceFile) (w : World) :
  filePath sf = path →
  persisting path sf w
  = match format (getFullText sf) with
    | Normal formatted =>
        (Normal tt,
         {| files := <[path := formatted]> (files w);
            trace := trace w ++
              [ FileWritten path (getFullText sf);
                ConsoleLog ["formatted"; path];
                FileWritten path formatted;
                LoggerInfo ("Formatted config file saved to " +:+ path) ] |})
    | Throw e =>
        (Throw e,
         {| files := <[path := getFullText sf]> (files w);
            trace := trace w ++ [FileWritten path (getFullText sf)] |})
    end.
Proof.
  intros Hpath.
  unfold persist, save, formatSourceFile, fs_writeFile, console_log,
    logger_info, emit, mbind, Task_bind.
  simpl. rewrite Hpath, lookup_insert_eq.
  destruct (format (getFullText sf)) as [formatted|e]; simpl; [|reflexivity].
  rewrite insert_insert_eq, <- !app_assoc. reflexivity.
Qed.

(** Skip mode: five log lines, then the module with the empty array is
    persisted. *)
Lemma buildStart_skip (env : Env) (now : string) (w : World) :
  skip moduleEnv = true →
  hook env now w
  = persisting tsFilePath (generatedModule tsFilePath now "[]") (logged buildLog w).
Proof.
  intros Hskip.
  unfold buildStart, buildEventIndexerConfig, storeTypesAndEnums.
  rewrite Hskip. run_task. reflexivity.
Qed.

(** The variable is unset or empty: the hook throws on the spot. *)
Lemma buildStart_missing (env : Env) (now : string) (w : World) :
  skip moduleEnv = false →
  envMissing env "CONFIGURED_EVENT_INDEXER" = true →
  hook env now w
  = (Throw (Error
       "CONFIGURED_EVENT_INDEXER is not defined in environment. Make sure to run the export step in the documentation."),
     logged [LoggerInfo "Plugin initialized."] w).
Proof.
  intros Hskip Hmiss. unfold buildStart. rewrite Hskip, Hmiss. reflexivity.
Qed.

(** Decoding throws: the hook passes the error on. *)
Lemma buildStart_undecodable (env : Env) (now : string) (w : World) s e :
  skip moduleEnv = false →
  env !! "CONFIGURED_EVENT_INDEXER" = Some s → s ≠ EmptyString →
  decodeBase64ToJson s = Throw e →
  hook env now w = (Throw e, logged [LoggerInfo "Plugin initialized."] w).
Proof.
  intros Hskip Henv Hs Hdec.
  destruct (env_present _ _ _ Henv Hs) as [Hmiss Hval].
  unfold buildStart. rewrite Hskip, Hmiss, Hval. run_task.
  rewrite Hdec. reflexivity.
Qed.

(** The validator says no: the hook throws its own error. *)
Lemma buildStart_invalid (env : Env) (now : string) (w : World) s v :
  skip moduleEnv = false →
  env !! "CONFIGURED_EVENT_INDEXER" = Some s → s ≠ EmptyString →
  decodeBase64ToJson s = Normal v →
  validateJsonAgainstSchema v configuredEventIndexerSchema = false →
  hook env now w
  = (Throw (Error "encoded configuredEventIndexer.json is not valid."),
     logged [LoggerInfo "Plugin initialized."] w).
Proof.
  intros Hskip Henv Hs Hdec Hval.
  destruct (env_present _ _ _ Henv Hs) as [Hmiss Hor].
  unfold buildStart. rewrite Hskip, Hmiss, Hor. run_task.
  rewrite Hdec. simpl. rewrite Hval. reflexivity.
Qed.

(** The payload decodes and validates: what happens next is decided by
    its [configuredEventIndexer] property. *)
Lemma buildStart_valid (env : Env) (now : string) (w : World) s v :
  skip moduleEnv = false →
  env !! "CONFIGURED_EVENT_INDEXER" = Some s → s ≠ EmptyString →
  decodeBase64ToJson s = Normal v →
  validateJsonAgainstSchema v configuredEventIndexerSchema = true →
  hook env now w
  = match Get v "configuredEventIndexer" with
    | Throw e => (Throw e, logged stoppedLog w)
    | Normal field =>
        if isArray field then
          match _formatObjectToTsLiteral field with
          | Normal literal =>
              persisting tsFilePath (generatedModule tsFilePath now literal)
                (logged buildLog w)
          | Throw e => (Throw e, logged stoppedLog w)
          end
        else
          (Throw (Error EmptyString),
           logged (stoppedLog ++
             [ConsoleError
                "configuredEventIndexer is not an array. Please check the content of the configuredEventIndexerConfigFile."]) w)
    end.
Proof.
  intros Hskip Henv Hs Hdec Hval.
  destruct (env_present _ _ _ Henv Hs) as [Hmiss Hor].
  unfold buildStart, buildEventIndexerConfig, storeTypesAndEnums.
  rewrite Hskip, Hmiss, Hor. run_task.
  rewrite Hdec. simpl. rewrite Hval. simpl.
  destruct (Get v "configuredEventIndexer") as [field|e]; simpl; [|settle].
  destruct field; simpl; try settle.
  - destruct b; settle.
  - destruct (negb (bool_decide (text = "0")) && negb (bool_decide (text = "NaN"))); settle.
  - destruct (negb (bool_decide (s0 = EmptyString))); settle.
  - destruct (mapCompletion _ elems) as [rendered|e]; settle.
Qed.

Lemma noWrite_logged (evs : list Event) (w : World) :
  writes evs = [] → noWrite w (logged evs w).
Proof. intros H. split; [reflexivity|]. exists evs. split; [reflexivity|exact H]. Qed.

(** C2.  Outside skip mode, when [CONFIGURED_EVENT_INDEXER] is unset or
    empty the hook throws an error with a descriptive message, and
    nothing has been written when it does: the disk is as it was. *)
Theorem missing_variable_throws_before_write (env : Env) (now : string) (w : World) :
  skip moduleEnv = false →
  env !! "CONFIGURED_EVENT_INDEXER" = None
  ∨ env !! "CONFIGURED_EVENT_INDEXER" = Some EmptyString →
  ∃ w',
    hook env now w
    = (Throw (Error
         "CONFIGURED_EVENT_INDEXER is not defined in environment. Make sure to run the export step in the documentation."),
       w')
    ∧ noWrite w w'.
Proof.
  intros Hskip Henv. apply envMissing_iff in Henv.
  eexists. split; [apply buildStart_missing; assumption|].
  apply noWrite_logged. reflexivity.
Qed.

(** C6.  Outside skip mode, when the validator rejects the decoded
    payload the hook throws an error and the run writes no file. *)
Theorem invalid_payload_throws (env : Env) (now : string) (w : World) s v :
  skip moduleEnv = false →
  env !! "CONFIGURED_EVENT_INDEXER" = Some s → s ≠ EmptyString →
  decodeBase64ToJson s = Normal v →
  validateJsonAgainstSchema v configuredEventIndexerSchema = false →
  ∃ w',
    hook env now w
    = (Throw (Error "encoded configuredEventIndexer.json is not valid."), w')
    ∧ noWrite w w'.
Proof.
  intros Hskip Henv Hs Hdec Hval.
  eexists. split; [eapply buildStart_invalid; eassumption|].
  apply noWrite_logged. reflexivity.
Qed.

(** C5 (as amended).  Outside skip mode, when the decoded payload has no
    [configuredEventIndexer] array (the property is missing or holds
    something else) the hook throws and nothing has been written when it
    does.  If the validator has let the payload through and the property
    can be read, the hook prints the error line with [console.error] as its
    last act and then throws an empty [Error]; if the validator has rejected
    the payload, the hook throws the validation error right after its first
    log line and prints nothing to error output. *)
Theorem malformed_field_throws_before_write (env : Env) (now : string) (w : World) s v :
  skip moduleEnv = false →
  env !! "CONFIGURED_EVENT_INDEXER" = Some s → s ≠ EmptyString →
  decodeBase64ToJson s = Normal v →
  (∀ elems, Get v "configuredEventIndexer" ≠ Normal (VArray elems)) →
  ∃ e w',
    hook env now w = (Throw e, w')
    ∧ noWrite w w'
    ∧ (validateJsonAgainstSchema v configuredEventIndexerSchema = true →
       ∀ field, Get v "configuredEventIndexer" = Normal field →
         e = Error EmptyString
         ∧ trace w' = trace w ++ stoppedLog ++ [ConsoleError notAnArray])
    ∧ (validateJsonAgainstSchema v configuredEventIndexerSchema = false →
       e = Error "encoded configuredEventIndexer.json is not valid."
       ∧ trace w' = trace w ++ [LoggerInfo "Plugin initialized."]).
Proof.
  intros Hskip Henv Hs Hdec Hfield.
  destruct (validateJsonAgainstSchema v configuredEventIndexerSchema) eqn:Hval.
  - rewrite (buildStart_valid env now w s v Hskip Henv Hs Hdec Hval).
    destruct (Get v "configuredEventIndexer") as [field|e] eqn:Hget.
    + destruct (isArray field) eqn:Harr.
      * destruct field; try discriminate. exfalso. eapply Hfield. reflexivity.
      * eexists _, _. split; [reflexivity|]. split; [|split].
        -- apply noWrite_logged. reflexivity.
        -- intros _ field' [= <-]. split; reflexivity.
        -- intros [=].
    + eexists _, _. split; [reflexivity|]. split; [|split].
      * apply noWrite_logged. reflexivity.
      * intros _ field [=].
      * intros [=].
  - eexists _, _. split; [eapply buildStart_invalid; eassumption|]. split; [|split].
    + apply noWrite_logged. reflexivity.
    + intros [=].
    + intros _. split; reflexivity.
Qed.

(** C3.  For a decoded and validated configuration whose
    [configuredEventIndexer] is an array of entries, the initializer of
    the generated constant is an opening bracket, the renderings with a
    comma and a space between neighbours ([String.concat] is the library's
    own), and a closing bracket, with exactly one rendering per input
    entry, the i-th rendering being that of the i-th entry. *)
Theorem one_rendering_per_entry_in_order
    (env : Env) (now : string) (w : World) s v elems shapes :
  skip moduleEnv = false →
  env !! "CONFIGURED_EVENT_INDEXER" = Some s → s ≠ EmptyString →
  decodeBase64ToJson s = Normal v →
  validateJsonAgainstSchema v configuredEventIndexerSchema = true →
  Get v "configuredEventIndexer" = Normal (VArray elems) →
  Forall2 shaped elems shapes →
  ∃ rendered,
    length rendered = length elems
    ∧ (∀ i x, elems !! i = Some x →
         ∃ sh, shapes !! i = Some sh ∧ shaped x sh ∧ rendered !! i = Some (entryText sh))
    ∧ (∀ i r, rendered !! i = Some r →
         ∃ x sh, elems !! i = Some x ∧ shapes !! i = Some sh ∧ shaped x sh
                 ∧ r = entryText sh)
    ∧ hook env now w
      = persisting tsFilePath
          (generatedModule tsFilePath now ("[" +:+ String.concat ", " rendered +:+ "]"))
          (logged buildLog w).
Proof.
  intros Hskip Henv Hs Hdec Hval Hget Hshaped.
  exists (entryText <$> shapes).
  split; [rewrite length_fmap; symmetry; eapply Forall2_length; exact Hshaped|].
  split; [|split].
  - intros i x Hi.
    destruct (Forall2_lookup_l _ _ _ _ _ Hshaped Hi) as (sh & Hsh & Hx).
    exists sh. rewrite list_lookup_fmap, Hsh.
    split; [reflexivity|]. split; [exact Hx|reflexivity].
  - intros i r Hi. rewrite list_lookup_fmap in Hi.
    destruct (shapes !! i) as [sh|] eqn:Hsh; [|discriminate].
    injection Hi as <-.
    destruct (Forall2_lookup_r _ _ _ _ _ Hshaped Hsh) as (x & Hx & Hxsh).
    exists x, sh. split; [exact Hx|]. split; [reflexivity|]. split; [exact Hxsh|reflexivity].
  - rewrite (buildStart_valid env now w s v Hskip Henv Hs Hdec Hval), Hget.
    simpl. rewrite (mapCompletion_shaped elems shapes Hshaped). simpl.
    rewrite joinStrings_concat. reflexivity.
Qed.

(** A run that returns went all the way: it persisted the module built
    from the initializer of this invocation. *)
Lemma buildStart_returns (env : Env) (now : string) (w w' : World) :
  hook env now w = (Normal tt, w') →
  ∃ init,
    initializerHere env init
    ∧ ∀ w0, hook env now w0
            = persisting tsFilePath (generatedModule tsFilePath now init)
                (logged buildLog w0).
Proof.
  unfold initializerOf. intros Hrun.
  destruct (skip moduleEnv) eqn:Hskip.
  { exists "[]". split; [reflexivity|].
    intros w0. apply buildStart_skip. exact Hskip. }
  destruct (envMissing env "CONFIGURED_EVENT_INDEXER") eqn:Hmiss.
  { rewrite (buildStart_missing env now w Hskip Hmiss) in Hrun. discriminate. }
  destruct (env !! "CONFIGURED_EVENT_INDEXER") as [s|] eqn:Henv;
    [|unfold envMissing in Hmiss; rewrite Henv in Hmiss; discriminate].
  assert (s ≠ EmptyString) as Hs.
  { unfold envMissing in Hmiss. rewrite Henv in Hmiss.
    apply bool_decide_eq_false in Hmiss. exact Hmiss. }
  destruct (decodeBase64ToJson s) as [v|e] eqn:Hdec;
    [|rewrite (buildStart_undecodable env now w s e Hskip Henv Hs Hdec) in Hrun;
      discriminate].
  destruct (validateJsonAgainstSchema v configuredEventIndexerSchema) eqn:Hval;
    [|rewrite (buildStart_invalid env now w s v Hskip Henv Hs Hdec Hval) in Hrun;
      discriminate].
  rewrite (buildStart_valid env now w s v Hskip Henv Hs Hdec Hval) in Hrun.
  destruct (Get v "configuredEventIndexer") as [field|e] eqn:Hget; [|discriminate].
  destruct (isArray field) eqn:Harr; [|discriminate].
  destruct (_formatObjectToTsLiteral field) as [literal|e] eqn:Hlit; [|discriminate].
  exists literal. split.
  - exists s, v, field. repeat split; assumption.
  - intros w0.
    rewrite (buildStart_valid env now w0 s v Hskip Henv Hs Hdec Hval), Hget, Harr, Hlit.
    reflexivity.
Qed.


(** C10.  The skip path is taken exactly when [SKIP_ENV_VALDIATION] is the
    string [true], letter for letter; [TRUE], [True] and [1] do not
    count.  On every other value the hook goes the long way, which it
    completes only if [CONFIGURED_EVENT_INDEXER] is set and not empty,
    decodes, and passes the validator. *)
Theorem skip_only_on_exact_true :
  (skip moduleEnv = true ↔ moduleEnv !! "SKIP_ENV_VALDIATION" = Some "true")
  ∧ (∀ s, s ∈ ["TRUE"; "True"; "1"; EmptyString; "true "] →
          moduleEnv !! "SKIP_ENV_VALDIATION" = Some s → skip moduleEnv = false)
  ∧ (moduleEnv !! "SKIP_ENV_VALDIATION" = Some "true" →
     ∀ env now w,
       hook env now w
       = persisting tsFilePath (generatedModule tsFilePath now "[]") (logged buildLog w))
  ∧ (moduleEnv !! "SKIP_ENV_VALDIATION" ≠ Some "true" →
     ∀ env now w w',
       hook env now w = (Normal tt, w') →
       ∃ s v,
         env !! "CONFIGURED_EVENT_INDEXER" = Some s ∧ s ≠ EmptyString
         ∧ decodeBase64ToJson s = Normal v
         ∧ validateJsonAgainstSchema v configuredEventIndexerSchema = true).
Proof.
  split; [apply skip_true_iff|]. split; [|split].
  - intros s Hs Henv. destruct (skip moduleEnv) eqn:Hskip; [|reflexivity].
    apply skip_true_iff in Hskip. rewrite Henv in Hskip. injection Hskip as ->.
    repeat (apply elem_of_cons in Hs as [Hs|Hs]; [discriminate|]).
    apply elem_of_nil in Hs. destruct Hs.
  - intros Htrue env now w. apply buildStart_skip. apply skip_true_iff. exact Htrue.
  - intros Hother env now w w' Hrun.
    destruct (buildStart_returns env now w w' Hrun) as (init & Hinit & _).
    unfold initializerOf in Hinit.
    destruct (skip moduleEnv) eqn:Hskip.
    + exfalso. apply Hother, skip_true_iff. exact Hskip.
    + destruct Hinit as (s & v & field & Henv & Hs & Hdec & Hval & _).
      exists s, v. repeat split; assumption.
Qed.

End Facts.

(** C1.  When [SKIP_ENV_VALDIATION] is [true] the hook writes the module
    whose constant is initialized to the empty array literal [[]]: after
    its five log lines it persists exactly that module.  The decoder, the
    validator, the schema and the environment of the run play no part: with
    any others in their place the run is the same. *)
Theorem skip_generates_empty_array
    (moduleEnv : Env) (getFullText : SourceFile → string)
    (format : string → Completion string)
    (path_resolve : string → string) (outputPath now : string) (w : World) :
  moduleEnv !! "SKIP_ENV_VALDIATION" = Some "true" →
  ∀ decode Schema (schema : Schema) validate (env : Env),
    let path := path_resolve outputPath in
    let generated := generatedModule path now "[]" in
    let run :=
      buildStart decode Schema schema validate getFullText format
        path_resolve outputPath moduleEnv env now w in
    run = persist getFullText format path generated (logged buildLog w)
    ∧ (∃ evs, trace run.2 = trace w ++ buildLog ++ evs
              ∧ head (writes evs) = Some (path, getFullText generated)
              ∧ ∀ p c, (p, c) ∈ writes evs → p = path)
    ∧ (∀ formatted, format (getFullText generated) = Normal formatted →
         run.1 = Normal tt ∧ files run.2 = <[path := formatted]> (files w))
    ∧ ∀ decode' Schema' (schema' : Schema') validate' (env' : Env),
        buildStart decode' Schema' schema' validate' getFullText format
          path_resolve outputPath moduleEnv env' now w
        = run.
Proof.
  intros Htrue decode Schema schema validate env path generated run.
  apply skip_true_iff in Htrue.
  assert (∀ D S (sc : S) V (e : Env),
            buildStart D S sc V getFullText format path_resolve outputPath moduleEnv e now w
            = persist getFullText format path generated (logged buildLog w)) as Hrun
    by (intros; apply buildStart_skip; exact Htrue).
  split; [apply Hrun|]. split; [|split].
  - subst run. rewrite Hrun, persist_run by reflexivity.
    destruct (format (getFullText generated)) as [formatted|e]; simpl.
    + eexists. split; [rewrite <- app_assoc; reflexivity|].
      split; [reflexivity|].
      intros p c Hin. simpl in Hin.
      repeat (apply elem_of_cons in Hin as [Hin|Hin]; [congruence|]).
      apply elem_of_nil in Hin. destruct Hin.
    + eexists. split; [rewrite <- app_assoc; reflexivity|].
      split; [reflexivity|].
      intros p c Hin. simpl in Hin.
      repeat (apply elem_of_cons in Hin as [Hin|Hin]; [congruence|]).
      apply elem_of_nil in Hin. destruct Hin.
  - intros formatted Hfmt. subst run.
    rewrite Hrun, persist_run by reflexivity. rewrite Hfmt. split; reflexivity.
  - intros. subst run. rewrite !Hrun. reflexivity.
Qed.

(** ** The theorems at work on the sample host *)

Lemma url_embedded_verbatim_witness :
  ∃ out,
    _formatEventIndexerConfigToTsLiteral (entryValue Sample.entryQ) = Normal out
    ∧ out = entryPrefix [167000]%Z +:+ dquote
            +:+ ("https://z.test/?q=" +:+ dquote +:+ "a" +:+ dquote) +:+ dquote +:+ "}"
    ∧ String.length out = String.length (entryPrefix [167000]%Z) + 21 + 3
    ∧ ∀ i, i < 21 →
        String.get (String.length (entryPrefix [167000]%Z) + 1 + i) out
        = String.get i ("https://z.test/?q=" +:+ dquote +:+ "a" +:+ dquote).
Proof.
  exact (url_embedded_verbatim (entryValue Sample.entryQ) Sample.entryQ
           (entryValue_represents Sample.entryQ)).
Defined.

Lemma skip_generates_empty_array_witness :
  Sample.hook Sample.skipping (Sample.configured "%%%") Sample.blank
  = persist Sample.print Sample.tidy Sample.out
      (generatedModule Sample.out Sample.clock "[]") (logged buildLog Sample.blank).
Proof.
  refine (proj1 (skip_generates_empty_array Sample.skipping Sample.print Sample.tidy id
                   Sample.out Sample.clock Sample.blank _
                   Sample.decode unit tt Sample.strict (Sample.configured "%%%"))).
  reflexivity.
Defined.

Lemma missing_variable_throws_before_write_witness :
  ∃ w',
    Sample.hook ∅ ∅ Sample.blank
    = (Throw (Error
         "CONFIGURED_EVENT_INDEXER is not defined in environment. Make sure to run the export step in the documentation."),
       w')
    ∧ noWrite Sample.blank w'.
Proof.
  apply (missing_variable_throws_before_write Sample.decode unit tt Sample.strict
           Sample.print Sample.tidy id Sample.out ∅ ∅ Sample.clock Sample.blank).
  - reflexivity.
  - left. reflexivity.
Defined.

Lemma invalid_payload_throws_witness :
  ∃ w',
    Sample.hook ∅ (Sample.configured Sample.otherEncoded) Sample.blank
    = (Throw (Error "encoded configuredEventIndexer.json is not valid."), w')
    ∧ noWrite Sample.blank w'.
Proof.
  apply (invalid_payload_throws Sample.decode unit tt Sample.strict
           Sample.print Sample.tidy id Sample.out ∅
           (Sample.configured Sample.otherEncoded) Sample.clock Sample.blank
           Sample.otherEncoded Sample.otherPayload).
  - reflexivity.
  - reflexivity.
  - discriminate.
  - reflexivity.
  - reflexivity.
Defined.

Lemma malformed_field_throws_before_write_witness :
  ∃ e w',
    Sample.lenientHook ∅ (Sample.configured Sample.stringEncoded) Sample.blank
    = (Throw e, w')
    ∧ noWrite Sample.blank w'
    ∧ (Sample.lenient Sample.stringPayload tt = true →
       ∀ field, Get Sample.stringPayload "configuredEventIndexer" = Normal field →
         e = Error EmptyString
         ∧ trace w' = trace Sample.blank ++ stoppedLog ++ [ConsoleError notAnArray])
    ∧ (Sample.lenient Sample.stringPayload tt = false →
       e = Error "encoded configuredEventIndexer.json is not valid."
       ∧ trace w' = trace Sample.blank ++ [LoggerInfo "Plugin initialized."]).
Proof.
  apply (malformed_field_throws_before_write Sample.decode unit tt Sample.lenient
           Sample.print Sample.tidy id Sample.out ∅
           (Sample.configured Sample.stringEncoded) Sample.clock Sample.blank
           Sample.stringEncoded Sample.stringPayload).
  - reflexivity.
  - reflexivity.
  - discriminate.
  - reflexivity.
  - intros elems. discriminate.
Defined.

(** C5 as it was stated fails where the validator rejects the payload: on
    [{"indexers":[]}] the property is missing, the hook throws the
    validation error after its first log line, and no line at all has gone
    to error output. *)
Lemma rejected_payload_logs_no_error :
  skip ∅ = false
  ∧ Sample.decode Sample.otherEncoded = Normal Sample.otherPayload
  ∧ Get Sample.otherPayload "configuredEventIndexer" = Normal VUndefined
  ∧ Sample.hook ∅ (Sample.configured Sample.otherEncoded) Sample.blank
    = (Throw (Error "encoded configuredEventIndexer.json is not valid."),
       logged [LoggerInfo "Plugin initialized."] Sample.blank)
  ∧ ∀ msg,
      ConsoleError msg
      ∉ trace (Sample.hook ∅ (Sample.configured Sample.otherEncoded) Sample.blank).2.
Proof.
  split; [reflexivity|]. split; [reflexivity|]. split; [reflexivity|].
  split; [vm_compute; reflexivity|].
  intros msg Hin. vm_compute in Hin.
  apply elem_of_cons in Hin as [Hin|Hin]; [discriminate|].
  apply elem_of_nil in Hin. exact Hin.
Qed.

Lemma one_rendering_per_entry_in_order_witness :
  Sample.hook ∅ (Sample.configured Sample.goodEncoded) Sample.blank
  = persist Sample.print Sample.tidy Sample.out
      (generatedModule Sample.out Sample.clock
         ("[{chainIds: [1, 10], url: " +:+ dquote +:+ "https://x.test" +:+ dquote
          +:+ "}, {chainIds: [], url: " +:+ dquote +:+ "https://y.test" +:+ dquote
          +:+ "}]"))
      (logged buildLog Sample.blank).
Proof.
  destruct (one_rendering_per_entry_in_order Sample.decode unit tt Sample.strict
              Sample.print Sample.tidy id Sample.out ∅
              (Sample.configured Sample.goodEncoded) Sample.clock Sample.blank
              Sample.goodEncoded Sample.goodPayload
              [entryValue Sample.entryA; entryValue Sample.entryB]
              [ {| idTexts := Some ["1"; "10"]; urlText := "https://x.test" |};
                {| idTexts := Some []; urlText := "https://y.test" |} ])
    as (rendered & Hlen & Hat & _ & Hrun).
  - reflexivity.
  - reflexivity.
  - discriminate.
  - reflexivity.
  - reflexivity.
  - reflexivity.
  - repeat constructor.
  - destruct (Hat 0 _ eq_refl) as (sh0 & Hsh0 & _ & Hr0).
    destruct (Hat 1 _ eq_refl) as (sh1 & Hsh1 & _ & Hr1).
    injection Hsh0 as <-. injection Hsh1 as <-.
    destruct rendered as [|r0 [|r1 [|r2 rendered]]]; try discriminate.
    injection Hr0 as ->. injection Hr1 as ->.
    exact Hrun.
Defined.



Lemma skip_only_on_exact_true_witness :
  skip {["SKIP_ENV_VALDIATION" := "TRUE"]} = false
  ∧ ∃ s v,
      Sample.configured Sample.goodEncoded !! "CONFIGURED_EVENT_INDEXER" = Some s
      ∧ s ≠ EmptyString
      ∧ Sample.decode s = Normal v
      ∧ Sample.strict v tt = true.
Proof.
  pose proof (skip_only_on_exact_true Sample.decode unit tt Sample.strict
                Sample.print Sample.tidy id Sample.out) as H.
  split.
  - apply (proj1 (proj2 (H {["SKIP_ENV_VALDIATION" := "TRUE"]})) "TRUE").
    + apply elem_of_cons. left. reflexivity.
    + reflexivity.
  - destruct (H {["SKIP_ENV_VALDIATION" := "1"]}) as (_ & _ & _ & Hlong).
    apply (Hlong ltac:(discriminate)
             (Sample.configured Sample.goodEncoded) Sample.clock Sample.blank
             (buildStart Sample.decode unit tt Sample.strict Sample.print Sample.tidy id
                Sample.out {["SKIP_ENV_VALDIATION" := "1"]}
                (Sample.configured Sample.goodEncoded) Sample.clock Sample.blank).2).
    vm_compute. reflexivity.
Defined.

(** The sample payload, generated: what the file holds in the end (the
    spacing is the sample printer's own). *)
Example sample_generated_text :
  files (Sample.hook ∅ (Sample.configured Sample.goodEncoded) Sample.blank).2 !! Sample.out
  = Some ("import type { EventIndexerConfig } from " +:+ dquote
          +:+ "$libs/eventIndexer" +:+ dquote +:+ ";" +:+ newline
          +:+ header Sample.clock
          +:+ "export const configuredEventIndexer: EventIndexerConfig[] = "
          +:+ "[{chainIds: [1, 10], url: " +:+ dquote +:+ "https://x.test" +:+ dquote
          +:+ "}, {chainIds: [], url: " +:+ dquote +:+ "https://y.test" +:+ dquote +:+ "}]"
          +:+ ";" +:+ newline).
Proof. vm_compute. reflexivity. Qed.

(** A URL with double quotes in it comes out with three quotes in a row at
    its end: the literal is no longer a well-formed string. *)
Example quoted_url_rendering :
  _formatEventIndexerConfigToTsLiteral (entryValue Sample.entryQ)
  = Normal ("{chainIds: [167000], url: " +:+ dquote +:+ "https://z.test/?q="
            +:+ dquote +:+ "a" +:+ dquote +:+ dquote +:+ "}").
Proof. vm_compute. reflexivity. Qed.

(** * Further properties *)

(** ** Reading a rendering back *)

Lemma append_cons (x : ascii) (a b : string) : String x a +:+ b = String x (a +:+ b).
Proof. reflexivity. Qed.

Lemma append_nil (b : string) : EmptyString +:+ b = b.
Proof. reflexivity. Qed.

Lemma append_cancel_r (a b c : string) : a +:+ c = b +:+ c → a = b.
Proof.
  intros H.
  assert (String.length a = String.length b) as Hlen.
  { apply (f_equal String.length) in H. rewrite !length_append in H. lia. }
  revert b H Hlen. induction a as [|x a IH]; intros [|y b] H Hlen; simpl in Hlen;
    try discriminate; [reflexivity|].
  rewrite !append_cons in H. injection H as -> H.
  f_equal. apply IH; [exact H|lia].
Qed.

Lemma mentions_append (c : ascii) (a b : string) :
  mentions c (a +:+ b) = mentions c a || mentions c b.
Proof.
  induction a as [|x a IH]; [reflexivity|].
  rewrite append_cons. simpl. rewrite IH, orb_assoc. reflexivity.
Qed.

(** Two texts that agree are cut alike at the first [c]. *)
Lemma split_at_first (c : ascii) (a a' x x' : string) :
  mentions c a = false → mentions c a' = false →
  a +:+ String c x = a' +:+ String c x' →
  a = a' ∧ x = x'.
Proof.
  revert a'. induction a as [|y a IH]; intros [|y' a'] Ha Ha' H.
  - rewrite !append_nil in H. injection H as ->. split; reflexivity.
  - rewrite append_nil, append_cons in H. injection H as <- _.
    simpl in Ha'. rewrite Ascii.eqb_refl in Ha'. discriminate.
  - rewrite append_nil, append_cons in H. injection H as -> _.
    simpl in Ha. rewrite Ascii.eqb_refl in Ha. discriminate.
  - rewrite !append_cons in H. injection H as -> H.
    simpl in Ha, Ha'. apply orb_false_elim in Ha as [_ Ha].
    apply orb_false_elim in Ha' as [_ Ha'].
    destruct (IH a' Ha Ha' H) as [-> ->]. split; reflexivity.
Qed.

Lemma mentions_uint (c : ascii) (d : Decimal.uint) :
  numeric c = false → mentions c (NilEmpty.string_of_uint d) = false.
Proof.
  intros Hc. unfold numeric in Hc. simpl in Hc.
  repeat (apply orb_false_elim in Hc as [? Hc]).
  induction d; simpl; rewrite ?IHd; try reflexivity;
    match goal with H : Ascii.eqb c _ = false |- _ => rewrite H; reflexivity end.
Qed.

Lemma mentions_number (c : ascii) (n : Z) :
  numeric c = false → mentions c (decimal n) = false.
Proof.
  intros Hc. unfold decimal.
  assert (∀ d, mentions c (NilZero.string_of_uint d) = false) as Hu.
  { intros d. destruct d; try apply (mentions_uint c _ Hc).
    unfold numeric in Hc. simpl in Hc.
    apply orb_false_elim in Hc as [H0 _]. simpl. rewrite H0. reflexivity. }
  destruct (Z.to_int n) as [d|d]; simpl; [apply Hu|].
  rewrite Hu.
  unfold numeric in Hc. simpl in Hc.
  repeat (apply orb_false_elim in Hc as [? Hc]).
  match goal with H : Ascii.eqb c "-" = false |- _ => rewrite H; reflexivity end.
Qed.

Lemma decimal_inj (n n' : Z) : decimal n = decimal n' → n = n'.
Proof.
  unfold decimal. intros H.
  apply DecimalZ.to_int_inj.
  assert (∀ z, NilZero.int_of_string (NilZero.string_of_int (Z.to_int z)) = Some (Z.to_int z))
    as Hback.
  { intros z. apply NilZero.isi; destruct z; simpl; try discriminate;
      intros [= Hp]; exact (DecimalPos.Unsigned.to_uint_nonnil _ Hp). }
  apply (f_equal NilZero.int_of_string) in H. rewrite !Hback in H.
  injection H as H. exact H.
Qed.

Lemma decimal_nonempty (n : Z) : decimal n ≠ EmptyString.
Proof.
  unfold decimal. intros H.
  assert (NilZero.int_of_string (NilZero.string_of_int (Z.to_int n)) = None) as Hnone
    by (rewrite H; reflexivity).
  rewrite NilZero.isi in Hnone; [discriminate| |];
    destruct n; simpl; try discriminate;
    intros [= Hp]; exact (DecimalPos.Unsigned.to_uint_nonnil _ Hp).
Qed.

Lemma append_nil_r (a : string) : a +:+ EmptyString = a.
Proof.
  induction a as [|x a IH]; [reflexivity|]. rewrite append_cons, IH. reflexivity.
Qed.

Lemma append_cancel_l (a b c : string) : a +:+ b = a +:+ c → b = c.
Proof.
  induction a as [|x a IH]; [intros H; exact H|].
  rewrite !append_cons. intros [= H]. apply IH. exact H.
Qed.

Lemma append_empty (a b : string) : a +:+ b = EmptyString → a = EmptyString.
Proof. destruct a; [reflexivity|]. rewrite append_cons. discriminate. Qed.

(** What follows the first part in a joined text: nothing, or the
    separator and the rest joined. *)
Lemma joinStrings_cons (sep p : string) (rest : list string) :
  joinStrings sep (p :: rest)
  = p +:+ match rest with
          | [] => EmptyString
          | _ :: _ => sep +:+ joinStrings sep rest
          end.
Proof. destruct rest; simpl; [rewrite append_nil_r|]; reflexivity. Qed.

Lemma mentions_join_numbers (c : ascii) (ids : list Z) :
  numeric c = false → mentions c ", " = false →
  mentions c (joinStrings ", " (decimal <$> ids)) = false.
Proof.
  intros Hnum Hsep. induction ids as [|n ids IH]; [reflexivity|].
  rewrite fmap_cons, joinStrings_cons, mentions_append, (mentions_number c n Hnum).
  destruct ids as [|m ids]; [reflexivity|].
  rewrite fmap_cons, mentions_append, Hsep. rewrite fmap_cons in IH. exact IH.
Qed.

(** The joined chain identifiers determine the list. *)
Lemma join_numbers_inj (ids ids' : list Z) :
  joinStrings ", " (decimal <$> ids) = joinStrings ", " (decimal <$> ids') →
  ids = ids'.
Proof.
  revert ids'. induction ids as [|n ids IH]; intros [|n' ids'] H.
  - reflexivity.
  - rewrite fmap_cons, joinStrings_cons in H. symmetry in H.
    apply append_empty in H. destruct (decimal_nonempty _ H).
  - rewrite fmap_cons, joinStrings_cons in H.
    apply append_empty in H. destruct (decimal_nonempty _ H).
  - rewrite !fmap_cons, !joinStrings_cons in H.
    apply (f_equal (λ t, t +:+ ",")) in H. simpl in H. rewrite !append_assoc in H.
    assert (∀ l : list Z,
              match decimal <$> l with
              | [] => EmptyString
              | _ :: _ => ", " +:+ joinStrings ", " (decimal <$> l)
              end +:+ ","
              = String ","
                  (match l with
                   | [] => EmptyString
                   | _ :: _ => " " +:+ joinStrings ", " (decimal <$> l) +:+ ","
                   end)) as Hshape.
    { intros [|m l]; [reflexivity|]. rewrite fmap_cons, append_assoc. reflexivity. }
    rewrite !Hshape in H.
    apply split_at_first in H as [Hn Hrest];
      [|apply mentions_number; reflexivity|apply mentions_number; reflexivity].
    apply decimal_inj in Hn as ->. f_equal.
    destruct ids as [|m ids], ids' as [|m' ids']; try reflexivity.
    + rewrite append_cons in Hrest. discriminate.
    + rewrite append_cons in Hrest. discriminate.
    + apply IH. rewrite !append_cons in Hrest. injection Hrest as Hrest.
      rewrite !append_nil in Hrest. apply append_cancel_r in Hrest. exact Hrest.
Qed.

(** A rendering followed by anything, read from the left: the bracket part
    gives the chain identifiers back, and the rest is the rest. *)
Lemma rendering_split (c c' : EventIndexerConfig) (t t' : string) :
  renderedEntry c +:+ t = renderedEntry c' +:+ t' →
  default [] (chainIds c) = default [] (chainIds c')
  ∧ url c +:+ dquote +:+ "}" +:+ t = url c' +:+ dquote +:+ "}" +:+ t'.
Proof.
  unfold renderedEntry. rewrite <- !joinStrings_concat, !append_assoc. intros H.
  apply append_cancel_l in H.
  change ("], url: " +:+ ?x) with (String "]" (", url: " +:+ x)) in H.
  apply split_at_first in H as [Hids H];
    [|apply mentions_join_numbers; reflexivity|apply mentions_join_numbers; reflexivity].
  apply join_numbers_inj in Hids. split; [exact Hids|].
  apply append_cancel_l in H. apply append_cancel_l in H. exact H.
Qed.

Lemma renderedEntry_inj (c c' : EventIndexerConfig) :
  renderedEntry c = renderedEntry c' → sameEntry c c'.
Proof.
  intros H.
  assert (renderedEntry c +:+ EmptyString = renderedEntry c' +:+ EmptyString) as H'
    by (rewrite H; reflexivity).
  apply rendering_split in H' as [Hids Hurl]. split; [exact Hids|].
  exact (append_cancel_r _ _ (dquote +:+ "}" +:+ EmptyString) Hurl).
Qed.

Lemma rendering_split_quoteFree (c c' : EventIndexerConfig) (t t' : string) :
  quoteFree (url c) → quoteFree (url c') →
  renderedEntry c +:+ t = renderedEntry c' +:+ t' →
  sameEntry c c' ∧ t = t'.
Proof.
  intros Hq Hq' H. apply rendering_split in H as [Hids H].
  apply split_at_first in H as [Hurl H]; [|exact Hq|exact Hq'].
  apply append_cancel_l in H. split; [split; assumption|exact H].
Qed.

Lemma join_renderings_inj (entries entries' : list EventIndexerConfig) :
  Forall (λ c, quoteFree (url c)) entries →
  Forall (λ c, quoteFree (url c)) entries' →
  joinStrings ", " (renderedEntry <$> entries)
  = joinStrings ", " (renderedEntry <$> entries') →
  Forall2 sameEntry entries entries'.
Proof.
  intros Hq. revert entries'.
  induction Hq as [|c entries Hc Hq IH]; intros entries' Hq' H;
    destruct Hq' as [|c' entries' Hc' Hq'].
  - constructor.
  - rewrite fmap_cons, joinStrings_cons in H. symmetry in H.
    apply append_empty in H. discriminate.
  - rewrite fmap_cons, joinStrings_cons in H.
    apply append_empty in H. discriminate.
  - rewrite !fmap_cons, !joinStrings_cons in H.
    apply rendering_split_quoteFree in H as [Hsame Hrest]; [|assumption|assumption].
    constructor; [exact Hsame|].
    destruct entries as [|d entries], entries' as [|d' entries'].
    + constructor.
    + discriminate.
    + discriminate.
    + apply IH; [exact Hq'|].
      apply append_cancel_l in Hrest. exact Hrest.
Qed.

(** ** The formatter on its own *)

Lemma Normal_inj {A : Type} (a b : A) : Normal a = Normal b → a = b.
Proof. intros H. congruence. Qed.

(** X1.  The rendering of one entry gives the entry back: two values that
    read as typed entries and are rendered alike have the same URL and the
    same chain identifiers, "none" and "an empty list" being the only two
    that cannot be told apart. *)
Theorem entry_rendering_injective (v v' : Value) (c c' : EventIndexerConfig) :
  represents v c → represents v' c' →
  _formatEventIndexerConfigToTsLiteral v = _formatEventIndexerConfigToTsLiteral v' →
  sameEntry c c'.
Proof.
  intros Hv Hv'. rewrite (format_represents v c Hv), (format_represents v' c' Hv').
  intros H. apply renderedEntry_inj, Normal_inj, H.
Qed.

Lemma entry_rendering_injective_witness :
  sameEntry {| chainIds := None; url := "https://y.test" |} Sample.entryB.
Proof.
  apply (entry_rendering_injective
           (VObject {["url" := VString "https://y.test"]}) (entryValue Sample.entryB)).
  - split; reflexivity.
  - apply entryValue_represents.
  - reflexivity.
Defined.

(** X2.  As long as no URL holds a double quote, the array literal gives
    the list of entries back: equal literals come from lists of the same
    length whose entries agree one by one. *)
Theorem literal_injective_without_quotes
    (elems elems' : list Value) (entries entries' : list EventIndexerConfig) :
  Forall2 represents elems entries → Forall2 represents elems' entries' →
  Forall (λ c, quoteFree (url c)) entries →
  Forall (λ c, quoteFree (url c)) entries' →
  _formatObjectToTsLiteral (VArray elems) = _formatObjectToTsLiteral (VArray elems') →
  Forall2 sameEntry entries entries'.
Proof.
  intros Hrep Hrep' Hq Hq'. simpl.
  rewrite (mapCompletion_represents _ _ Hrep), (mapCompletion_represents _ _ Hrep').
  simpl. intros H. apply Normal_inj in H.
  apply append_cancel_l in H. apply append_cancel_r in H.
  apply join_renderings_inj; assumption.
Qed.

Lemma literal_injective_without_quotes_witness :
  Forall2 sameEntry
    [Sample.entryA; {| chainIds := None; url := "https://y.test" |}]
    [Sample.entryA; Sample.entryB].
Proof.
  apply (literal_injective_without_quotes
           [entryValue Sample.entryA; VObject {["url" := VString "https://y.test"]}]
           [entryValue Sample.entryA; entryValue Sample.entryB]).
  - repeat constructor.
  - repeat constructor.
  - repeat constructor.
  - repeat constructor.
  - reflexivity.
Defined.

(** X3.  With double quotes allowed the array literal no longer tells the
    entries apart: one entry whose URL closes its own literal and opens
    another is rendered exactly as the two entries it imitates. *)
Theorem quoted_url_imitates_two_entries (ids1 ids2 : list Z) (u1 u2 : string) :
  _formatObjectToTsLiteral (VArray [entryValue (smuggling ids1 u1 ids2 u2)])
  = _formatObjectToTsLiteral
      (VArray [ entryValue {| chainIds := Some ids1; url := u1 |};
                entryValue {| chainIds := Some ids2; url := u2 |} ]).
Proof.
  simpl.
  rewrite !(format_represents _ _ (entryValue_represents _)). simpl.
  unfold renderedEntry, smuggling, entryPrefix. simpl.
  rewrite !append_assoc. reflexivity.
Qed.

(** X4.  Chain identifiers that are present but falsy ([null], [false],
    [0], the empty string) are rendered as the empty bracket, like absent
    ones. *)
Theorem falsy_chain_ids_render_empty (props : gmap string Value) (x : Value) (u : string) :
  props !! "chainIds" = Some x → ToBoolean x = false →
  props !! "url" = Some (VString u) →
  _formatEventIndexerConfigToTsLiteral (VObject props)
  = Normal ("{chainIds: [], url: " +:+ dquote +:+ u +:+ dquote +:+ "}").
Proof.
  intros Hids Hfalsy Hurl. unfold _formatEventIndexerConfigToTsLiteral. simpl.
  rewrite Hids, Hurl. simpl. rewrite Hfalsy. reflexivity.
Qed.

Lemma falsy_chain_ids_render_empty_witness :
  _formatEventIndexerConfigToTsLiteral
    (VObject (<["chainIds" := VNull]> {["url" := VString "https://y.test"]}))
  = Normal ("{chainIds: [], url: " +:+ dquote +:+ "https://y.test" +:+ dquote +:+ "}").
Proof.
  apply (falsy_chain_ids_render_empty _ VNull); reflexivity.
Defined.

(** X5.  Chain identifiers that are truthy without being an array (a
    non-empty string, a non-zero number, [true], an object) make the
    formatter throw a [TypeError], whatever the URL is. *)
Theorem non_array_chain_ids_throw (props : gmap string Value) (x : Value) :
  props !! "chainIds" = Some x → ToBoolean x = true → isArray x = false →
  _formatEventIndexerConfigToTsLiteral (VObject props) = Throw TypeError.
Proof.
  intros Hids Htruthy Harr. unfold _formatEventIndexerConfigToTsLiteral. simpl.
  rewrite Hids. simpl. rewrite Htruthy. simpl.
  destruct x; try discriminate; reflexivity.
Qed.

Lemma non_array_chain_ids_throw_witness :
  _formatEventIndexerConfigToTsLiteral
    (VObject (<["chainIds" := VString "1,10"]> {["url" := VString "https://x.test"]}))
  = Throw TypeError.
Proof.
  apply (non_array_chain_ids_throw _ (VString "1,10")); reflexivity.
Defined.

(** X6.  The URL is printed through [ToString], whatever it is: an entry
    whose [url] reads as [x] is rendered like the entry whose URL is the
    text of [x] (a number's own text, [null] for [null], and so on), so an
    entry without [url] comes out with the URL [undefined]. *)
Theorem url_printed_through_ToString
    (v x : Value) (texts : option (list string)) (t : string) :
  Get v "chainIds"
  = Normal (match texts with Some l => VArray (VNumber <$> l) | None => VUndefined end) →
  Get v "url" = Normal x → ToString x = Normal t →
  _formatEventIndexerConfigToTsLiteral v
  = Normal ("{chainIds: [" +:+ String.concat ", " (default [] texts)
            +:+ "], url: " +:+ dquote +:+ t +:+ dquote +:+ "}")
  ∧ (x = VUndefined →
     _formatEventIndexerConfigToTsLiteral v
     = Normal ("{chainIds: [" +:+ String.concat ", " (default [] texts)
               +:+ "], url: " +:+ dquote +:+ "undefined" +:+ dquote +:+ "}")).
Proof.
  intros Hids Hurl Ht.
  assert (_formatEventIndexerConfigToTsLiteral v
          = Normal ("{chainIds: [" +:+ String.concat ", " (default [] texts)
                    +:+ "], url: " +:+ dquote +:+ t +:+ dquote +:+ "}")) as Hfmt.
  { unfold _formatEventIndexerConfigToTsLiteral.
    rewrite Hids, Hurl. destruct texts as [l|]; simpl.
    - rewrite Array_join_numbers. simpl. rewrite Ht. reflexivity.
    - rewrite Ht. reflexivity. }
  split; [exact Hfmt|].
  intros ->. rewrite Hfmt. apply Normal_inj in Ht. rewrite <- Ht. reflexivity.
Qed.

Lemma url_printed_through_ToString_witness :
  _formatEventIndexerConfigToTsLiteral
    (VObject {["chainIds" := VArray [VNumber "1"]]})
  = Normal ("{chainIds: [1], url: " +:+ dquote +:+ "undefined" +:+ dquote +:+ "}")
  ∧ _formatEventIndexerConfigToTsLiteral
      (VObject (<["chainIds" := VArray [VNumber "1"]]> {["url" := VNumber "1e+21"]}))
    = Normal ("{chainIds: [1], url: " +:+ dquote +:+ "1e+21" +:+ dquote +:+ "}").
Proof.
  split.
  - refine (proj2 (url_printed_through_ToString
                     (VObject {["chainIds" := VArray [VNumber "1"]]}) VUndefined
                     (Some ["1"]) "undefined" _ _ _) _); reflexivity.
  - refine (proj1 (url_printed_through_ToString _ (VNumber "1e+21")
                     (Some ["1"]) "1e+21" _ _ _)); reflexivity.
Defined.

(** ** The hook, path by path *)

Lemma mapCompletion_stops {A B : Type} (f : A → Completion B)
    (good : list A) (bad : A) (rest : list A) (done : list B) (e : Exn) :
  mapCompletion f good = Normal done → f bad = Throw e →
  mapCompletion f (good ++ bad :: rest) = Throw e.
Proof.
  revert done. induction good as [|x good IH]; intros done Hgood Hbad; simpl.
  - rewrite Hbad. reflexivity.
  - simpl in Hgood. destruct (f x) as [y|]; simpl in *; [|discriminate].
    destruct (mapCompletion f good) as [ys|]; simpl in *; [|discriminate].
    rewrite (IH ys eq_refl Hbad). reflexivity.
Qed.

Section Paths.

Context (decodeBase64ToJson : string → Completion Value)
        (Schema : Type) (configuredEventIndexerSchema : Schema)
        (validateJsonAgainstSchema : Value → Schema → bool)
        (getFullText : SourceFile → string)
        (format : string → Completion string)
        (path_resolve : string → string) (outputPath : string)
        (moduleEnv : Env).

Local Abbreviation hook :=
  (buildStart decodeBase64ToJson Schema configuredEventIndexerSchema
     validateJsonAgainstSchema getFullText format path_resolve outputPath moduleEnv).
Local Abbreviation tsFilePath := (path_resolve outputPath).
Local Abbreviation persisting := (persist getFullText format).
Local Abbreviation sourced :=
  (initializerOf decodeBase64ToJson Schema configuredEventIndexerSchema
     validateJsonAgainstSchema moduleEnv).
Local Abbreviation text := (λ now init, getFullText (generatedModule tsFilePath now init)).

(** An initializer that can be sourced is persisted. *)
Lemma buildStart_sourced (env : Env) (now init : string) (w : World) :
  sourced env init →
  hook env now w
  = persisting tsFilePath (generatedModule tsFilePath now init) (logged buildLog w).
Proof.
  unfold initializerOf. destruct (skip moduleEnv) eqn:Hskip.
  - intros ->. apply buildStart_skip. exact Hskip.
  - intros (s & v & field & Henv & Hs & Hdec & Hval & Hget & Harr & Hlit).
    rewrite (buildStart_valid decodeBase64ToJson Schema configuredEventIndexerSchema
              validateJsonAgainstSchema getFullText format path_resolve outputPath moduleEnv env now w s v Hskip Henv Hs Hdec Hval).
    rewrite Hget, Harr, Hlit. reflexivity.
Qed.

(** Every run either throws having written nothing, or persists a module
    whose initializer was sourced. *)
Lemma buildStart_cases (env : Env) (now : string) (w : World) :
  (∃ e evs, hook env now w = (Throw e, logged evs w) ∧ writes evs = [])
  ∨ (∃ init, sourced env init
             ∧ hook env now w
               = persisting tsFilePath (generatedModule tsFilePath now init)
                   (logged buildLog w)).
Proof.
  destruct (skip moduleEnv) eqn:Hskip.
  { right. exists "[]".
    assert (sourced env "[]") as Hs by (unfold initializerOf; rewrite Hskip; reflexivity).
    split; [exact Hs|]. apply buildStart_sourced. exact Hs. }
  destruct (envMissing env "CONFIGURED_EVENT_INDEXER") eqn:Hmiss.
  { left. eexists _, _. split; [apply buildStart_missing; assumption|reflexivity]. }
  destruct (env !! "CONFIGURED_EVENT_INDEXER") as [s|] eqn:Henv;
    [|unfold envMissing in Hmiss; rewrite Henv in Hmiss; discriminate].
  assert (s ≠ EmptyString) as Hs.
  { unfold envMissing in Hmiss. rewrite Henv in Hmiss.
    apply bool_decide_eq_false in Hmiss. exact Hmiss. }
  destruct (decodeBase64ToJson s) as [v|e] eqn:Hdec.
  2:{ left. eexists _, _.
      split; [eapply buildStart_undecodable; eassumption|reflexivity]. }
  destruct (validateJsonAgainstSchema v configuredEventIndexerSchema) eqn:Hval.
  2:{ left. eexists _, _.
      split; [eapply buildStart_invalid; eassumption|reflexivity]. }
  pose proof (buildStart_valid decodeBase64ToJson Schema configuredEventIndexerSchema
              validateJsonAgainstSchema getFullText format path_resolve outputPath moduleEnv env now w s v Hskip Henv Hs Hdec Hval)
    as Hrun.
  destruct (Get v "configuredEventIndexer") as [field|e] eqn:Hget.
  2:{ left. eexists _, _. split; [exact Hrun|reflexivity]. }
  destruct (isArray field) eqn:Harr.
  2:{ left. eexists _, _. split; [exact Hrun|reflexivity]. }
  destruct (_formatObjectToTsLiteral field) as [literal|e] eqn:Hlit.
  2:{ left. eexists _, _. split; [exact Hrun|reflexivity]. }
  right. exists literal. split; [|exact Hrun].
  unfold initializerOf. rewrite Hskip.
  exists s, v, field. repeat split; assumption.
Qed.

(** X7.  Outside skip mode, when decoding the variable throws, the hook
    throws the decoder's error as it is, right after its first log line
    and having written nothing. *)
Theorem undecodable_payload_throws (env : Env) (now : string) (w : World) s e :
  skip moduleEnv = false →
  env !! "CONFIGURED_EVENT_INDEXER" = Some s → s ≠ EmptyString →
  decodeBase64ToJson s = Throw e →
  hook env now w = (Throw e, logged [LoggerInfo "Plugin initialized."] w)
  ∧ noWrite w (hook env now w).2.
Proof.
  intros Hskip Henv Hs Hdec.
  assert (hook env now w = (Throw e, logged [LoggerInfo "Plugin initialized."] w)) as Hrun
    by (eapply buildStart_undecodable; eassumption).
  split; [exact Hrun|]. rewrite Hrun. apply noWrite_logged. reflexivity.
Qed.

(** X8.  The hook returns exactly when an initializer can be sourced (skip
    mode, or a variable that is set, decodes, validates and holds an array
    the formatter accepts) and the formatter accepts the module built from
    it. *)
Theorem returns_iff_sourced_and_formatted (env : Env) (now : string) (w : World) :
  (∃ w', hook env now w = (Normal tt, w'))
  ↔ ∃ init formatted, sourced env init ∧ format (text now init) = Normal formatted.
Proof.
  split.
  - intros [w' Hrun].
    destruct (buildStart_returns decodeBase64ToJson Schema configuredEventIndexerSchema
              validateJsonAgainstSchema getFullText format path_resolve outputPath moduleEnv env now w w' Hrun)
      as (init & Hinit & Hall).
    rewrite (Hall w), persist_run in Hrun by reflexivity.
    destruct (format (getFullText (generatedModule tsFilePath now init)))
      as [formatted|e] eqn:Hfmt; [|discriminate].
    exists init, formatted. split; [exact Hinit|exact Hfmt].
  - intros (init & formatted & Hinit & Hfmt).
    rewrite (buildStart_sourced env now init w Hinit), persist_run by reflexivity.
    rewrite Hfmt. eexists. reflexivity.
Qed.

(** X9.  When the formatter throws, the hook throws the same error, and
    the file saved just before stays on disk, unformatted: it is the one
    write of the run. *)
Theorem formatter_failure_leaves_saved_module
    (env : Env) (now init : string) (w : World) (e : Exn) :
  sourced env init → format (text now init) = Throw e →
  hook env now w
  = (Throw e,
     {| files := <[tsFilePath := text now init]> (files w);
        trace := trace w ++ buildLog ++ [FileWritten tsFilePath (text now init)] |}).
Proof.
  intros Hinit Hfmt.
  rewrite (buildStart_sourced env now init w Hinit), persist_run by reflexivity.
  rewrite Hfmt. simpl. rewrite <- app_assoc. reflexivity.
Qed.

(** X10.  Whatever the run does, no file other than the output file is
    created or changed. *)
Theorem only_output_path_touched (env : Env) (now : string) (w : World) (p : string) :
  p ≠ tsFilePath →
  files (hook env now w).2 !! p = files w !! p.
Proof.
  intros Hp.
  destruct (buildStart_cases env now w) as [(e & evs & -> & _)|(init & _ & ->)];
    [reflexivity|].
  rewrite persist_run by reflexivity.
  destruct (format (getFullText (generatedModule tsFilePath now init)));
    simpl; apply lookup_insert_ne; congruence.
Qed.

(** X11.  A run that writes at all has got through every check first: an
    initializer was sourced, the first write is the module built from it,
    and every write goes to the output file. *)
Theorem writes_only_after_validation
    (env : Env) (now : string) (w : World) (evs : list Event) :
  trace (hook env now w).2 = trace w ++ evs →
  writes evs ≠ [] →
  ∃ init,
    sourced env init
    ∧ head (writes evs) = Some (tsFilePath, text now init)
    ∧ ∀ p c, (p, c) ∈ writes evs → p = tsFilePath.
Proof.
  intros Htrace Hwrites.
  destruct (buildStart_cases env now w) as [(e & evs0 & Hrun & Hnone)|(init & Hinit & Hrun)].
  - rewrite Hrun in Htrace. simpl in Htrace.
    apply app_inv_head in Htrace. subst evs0. contradiction.
  - exists init. split; [exact Hinit|].
    rewrite Hrun, persist_run in Htrace by reflexivity.
    destruct (format (getFullText (generatedModule tsFilePath now init)));
      simpl in Htrace; rewrite <- app_assoc in Htrace;
      apply app_inv_head in Htrace; subst evs; simpl;
      (split; [reflexivity|]);
      intros p c Hin;
      repeat (apply elem_of_cons in Hin as [Hin|Hin]; [congruence|]);
      apply elem_of_nil in Hin; destruct Hin.
Qed.

(** X12.  Of the environment at run time the hook reads
    [CONFIGURED_EVENT_INDEXER] and nothing else: two environments that agree
    on it give the same run.  In particular a [SKIP_ENV_VALDIATION] set
    after the module was loaded changes nothing. *)
Theorem runtime_environment_read_once (env env' : Env) (now : string) (w : World) :
  env !! "CONFIGURED_EVENT_INDEXER" = env' !! "CONFIGURED_EVENT_INDEXER" →
  hook env now w = hook env' now w.
Proof.
  intros H. unfold buildStart, envMissing, envOrEmpty. rewrite H. reflexivity.
Qed.

(** X13.  Entries are formatted from the first on; at the first one the
    formatter throws on, the hook throws that error, with no
    [console.error] line and nothing written. *)
Theorem first_bad_entry_aborts
    (env : Env) (now : string) (w : World) s v good bad rest done e :
  skip moduleEnv = false →
  env !! "CONFIGURED_EVENT_INDEXER" = Some s → s ≠ EmptyString →
  decodeBase64ToJson s = Normal v →
  validateJsonAgainstSchema v configuredEventIndexerSchema = true →
  Get v "configuredEventIndexer" = Normal (VArray (good ++ bad :: rest)) →
  mapCompletion _formatEventIndexerConfigToTsLiteral good = Normal done →
  _formatEventIndexerConfigToTsLiteral bad = Throw e →
  hook env now w = (Throw e, logged stoppedLog w)
  ∧ noWrite w (hook env now w).2.
Proof.
  intros Hskip Henv Hs Hdec Hval Hget Hgood Hbad.
  assert (hook env now w = (Throw e, logged stoppedLog w)) as Hrun.
  { rewrite (buildStart_valid decodeBase64ToJson Schema configuredEventIndexerSchema
              validateJsonAgainstSchema getFullText format path_resolve outputPath moduleEnv env now w s v Hskip Henv Hs Hdec Hval).
    rewrite Hget. simpl.
    rewrite (mapCompletion_stops _ good bad rest done e Hgood Hbad). reflexivity. }
  split; [exact Hrun|]. rewrite Hrun. apply noWrite_logged. reflexivity.
Qed.

(** X14.  A validated payload whose property cannot even be read ([null])
    makes the hook throw the read's [TypeError]: no [console.error] line,
    nothing written. *)
Theorem unreadable_payload_throws (env : Env) (now : string) (w : World) s v e :
  skip moduleEnv = false →
  env !! "CONFIGURED_EVENT_INDEXER" = Some s → s ≠ EmptyString →
  decodeBase64ToJson s = Normal v →
  validateJsonAgainstSchema v configuredEventIndexerSchema = true →
  Get v "configuredEventIndexer" = Throw e →
  e = TypeError
  ∧ hook env now w = (Throw e, logged stoppedLog w)
  ∧ noWrite w (hook env now w).2.
Proof.
  intros Hskip Henv Hs Hdec Hval Hget.
  assert (hook env now w = (Throw e, logged stoppedLog w)) as Hrun.
  { rewrite (buildStart_valid decodeBase64ToJson Schema configuredEventIndexerSchema
              validateJsonAgainstSchema getFullText format path_resolve outputPath moduleEnv env now w s v Hskip Henv Hs Hdec Hval).
    rewrite Hget. reflexivity. }
  split; [destruct v; simpl in Hget; congruence|].
  split; [exact Hrun|]. rewrite Hrun. apply noWrite_logged. reflexivity.
Qed.

(** X15.  Runs do not build on one another: after two successful runs in
    a row the disk is what the second run alone would have left. *)
Theorem second_run_erases_first
    (envA envB : Env) (nowA nowB : string) (w w1 w2 : World) :
  hook envA nowA w = (Normal tt, w1) →
  hook envB nowB w1 = (Normal tt, w2) →
  ∃ w2', hook envB nowB w = (Normal tt, w2') ∧ files w2' = files w2.
Proof.
  intros HA HB.
  destruct (buildStart_returns decodeBase64ToJson Schema configuredEventIndexerSchema
              validateJsonAgainstSchema getFullText format path_resolve outputPath moduleEnv envA nowA w w1 HA) as (initA & _ & HallA).
  destruct (buildStart_returns decodeBase64ToJson Schema configuredEventIndexerSchema
              validateJsonAgainstSchema getFullText format path_resolve outputPath moduleEnv envB nowB w1 w2 HB) as (initB & _ & HallB).
  rewrite (HallA w), persist_run in HA by reflexivity.
  rewrite (HallB w1), persist_run in HB by reflexivity.
  rewrite (HallB w), persist_run by reflexivity.
  destruct (format (getFullText (generatedModule tsFilePath nowA initA))); [|discriminate].
  destruct (format (getFullText (generatedModule tsFilePath nowB initB))); [|discriminate].
  injection HA as <-. injection HB as <-.
  eexists. split; [reflexivity|]. simpl. rewrite insert_insert_eq. reflexivity.
Qed.

End Paths.

(** X16.  A validated configuration with an empty array leads to the very
    run that skip mode leads to: same log, same module, same writes. *)
Theorem empty_configuration_same_as_skip
    (decodeBase64ToJson : string → Completion Value)
    (Schema : Type) (configuredEventIndexerSchema : Schema)
    (validateJsonAgainstSchema : Value → Schema → bool)
    (getFullText : SourceFile → string) (format : string → Completion string)
    (path_resolve : string → string) (outputPath : string)
    (moduleEnv moduleEnv' env env' : Env) (now : string) (w : World) s v :
  skip moduleEnv = false → skip moduleEnv' = true →
  env !! "CONFIGURED_EVENT_INDEXER" = Some s → s ≠ EmptyString →
  decodeBase64ToJson s = Normal v →
  validateJsonAgainstSchema v configuredEventIndexerSchema = true →
  Get v "configuredEventIndexer" = Normal (VArray []) →
  buildStart decodeBase64ToJson Schema configuredEventIndexerSchema
    validateJsonAgainstSchema getFullText format path_resolve outputPath
    moduleEnv env now w
  = buildStart decodeBase64ToJson Schema configuredEventIndexerSchema
      validateJsonAgainstSchema getFullText format path_resolve outputPath
      moduleEnv' env' now w.
Proof.
  intros Hskip Hskip' Henv Hs Hdec Hval Hget.
  rewrite (buildStart_valid decodeBase64ToJson Schema configuredEventIndexerSchema
             validateJsonAgainstSchema getFullText format path_resolve outputPath
             moduleEnv env now w s v Hskip Henv Hs Hdec Hval), Hget.
  rewrite (buildStart_skip decodeBase64ToJson Schema configuredEventIndexerSchema
             validateJsonAgainstSchema getFullText format path_resolve outputPath
             moduleEnv' env' now w Hskip').
  reflexivity.
Qed.

(** ** The further theorems at work *)

Lemma undecodable_payload_throws_witness :
  Sample.hook ∅ (Sample.configured "%%%") Sample.blank
  = (Throw (Raised "SyntaxError"), logged [LoggerInfo "Plugin initialized."] Sample.blank)
  ∧ noWrite Sample.blank (Sample.hook ∅ (Sample.configured "%%%") Sample.blank).2.
Proof.
  apply (undecodable_payload_throws Sample.decode unit tt Sample.strict
           Sample.print Sample.tidy id Sample.out ∅
           (Sample.configured "%%%") Sample.clock Sample.blank "%%%").
  - reflexivity.
  - reflexivity.
  - discriminate.
  - reflexivity.
Defined.

Lemma returns_iff_sourced_and_formatted_witness :
  ∃ w', Sample.hook ∅ (Sample.configured Sample.goodEncoded) Sample.blank = (Normal tt, w').
Proof.
  apply (proj2 (returns_iff_sourced_and_formatted Sample.decode unit tt Sample.strict
                  Sample.print Sample.tidy id Sample.out ∅
                  (Sample.configured Sample.goodEncoded) Sample.clock Sample.blank)).
  eexists _, _. split; [|reflexivity].
  unfold initializerOf. change (skip ∅) with false. cbv iota.
  exists Sample.goodEncoded, Sample.goodPayload,
    (VArray [entryValue Sample.entryA; entryValue Sample.entryB]).
  repeat split; try reflexivity. discriminate.
Defined.

Lemma formatter_failure_leaves_saved_module_witness :
  let init := "[" +:+ joinStrings ", " (renderedEntry <$> [Sample.entryA; Sample.entryB]) +:+ "]" in
  let saved := Sample.print (generatedModule Sample.out Sample.clock init) in
  Probe.hook Sample.goodPayload Probe.choking Sample.blank
  = (Throw (Raised "SyntaxError"),
     {| files := <[Sample.out := saved]> ∅;
        trace := buildLog ++ [FileWritten Sample.out saved] |}).
Proof.
  intros init saved.
  apply (formatter_failure_leaves_saved_module (Probe.decodeTo Sample.goodPayload)
           unit tt Sample.lenient Sample.print Probe.choking id Sample.out ∅
           (Sample.configured "e30=") Sample.clock init Sample.blank).
  - unfold initializerOf. change (skip ∅) with false. cbv iota.
    exists "e30=", Sample.goodPayload,
      (VArray [entryValue Sample.entryA; entryValue Sample.entryB]).
    repeat split; try reflexivity. discriminate.
  - reflexivity.
Defined.

Lemma only_output_path_touched_witness :
  let w := {| files := {["/bridge-ui/package.json" := "{}"]}; trace := [] |} in
  files (Sample.hook ∅ (Sample.configured Sample.goodEncoded) w).2
    !! "/bridge-ui/package.json"
  = files w !! "/bridge-ui/package.json".
Proof.
  intros w.
  apply (only_output_path_touched Sample.decode unit tt Sample.strict
           Sample.print Sample.tidy id Sample.out ∅
           (Sample.configured Sample.goodEncoded) Sample.clock w).
  vm_compute. discriminate.
Defined.

Lemma writes_only_after_validation_witness :
  let run := Sample.hook ∅ (Sample.configured Sample.goodEncoded) Sample.blank in
  ∃ init,
    initializerOf Sample.decode unit tt Sample.strict ∅
      (Sample.configured Sample.goodEncoded) init
    ∧ head (writes (trace run.2))
      = Some (Sample.out, Sample.print (generatedModule Sample.out Sample.clock init))
    ∧ ∀ p c, (p, c) ∈ writes (trace run.2) → p = Sample.out.
Proof.
  intros run.
  apply (writes_only_after_validation Sample.decode unit tt Sample.strict
           Sample.print Sample.tidy id Sample.out ∅
           (Sample.configured Sample.goodEncoded) Sample.clock Sample.blank
           (trace run.2)).
  - reflexivity.
  - vm_compute. discriminate.
Defined.

Lemma runtime_environment_read_once_witness :
  Sample.hook ∅ (Sample.configured Sample.goodEncoded) Sample.blank
  = Sample.hook ∅
      (<["SKIP_ENV_VALDIATION" := "true"]> (Sample.configured Sample.goodEncoded))
      Sample.blank.
Proof.
  apply (runtime_environment_read_once Sample.decode unit tt Sample.strict
           Sample.print Sample.tidy id Sample.out ∅).
  vm_compute. reflexivity.
Defined.

Lemma first_bad_entry_aborts_witness :
  Probe.hook Probe.holedPayload Sample.tidy Sample.blank
  = (Throw TypeError, logged stoppedLog Sample.blank)
  ∧ noWrite Sample.blank (Probe.hook Probe.holedPayload Sample.tidy Sample.blank).2.
Proof.
  apply (first_bad_entry_aborts (Probe.decodeTo Probe.holedPayload)
           unit tt Sample.lenient Sample.print Sample.tidy id Sample.out ∅
           (Sample.configured "e30=") Sample.clock Sample.blank "e30="
           Probe.holedPayload [entryValue Sample.entryA] VNull []
           [renderedEntry Sample.entryA] TypeError).
  - reflexivity.
  - reflexivity.
  - discriminate.
  - reflexivity.
  - reflexivity.
  - reflexivity.
  - reflexivity.
  - reflexivity.
Defined.

Lemma unreadable_payload_throws_witness :
  TypeError = TypeError
  ∧ Probe.hook VNull Sample.tidy Sample.blank
    = (Throw TypeError, logged stoppedLog Sample.blank)
  ∧ noWrite Sample.blank (Probe.hook VNull Sample.tidy Sample.blank).2.
Proof.
  apply (unreadable_payload_throws (Probe.decodeTo VNull)
           unit tt Sample.lenient Sample.print Sample.tidy id Sample.out ∅
           (Sample.configured "e30=") Sample.clock Sample.blank "e30=" VNull TypeError).
  - reflexivity.
  - reflexivity.
  - discriminate.
  - reflexivity.
  - reflexivity.
  - reflexivity.
Defined.

Lemma second_run_erases_first_witness :
  let run :=
    buildStart Sample.decode unit tt Sample.strict Sample.print Sample.tidy id
      Sample.out ∅ (Sample.configured Sample.goodEncoded) in
  let first := run Sample.clock Sample.blank in
  let second := run "8/15/2024, 9:30:00 AM" first.2 in
  ∃ w2',
    run "8/15/2024, 9:30:00 AM" Sample.blank = (Normal tt, w2')
    ∧ files w2' = files second.2.
Proof.
  intros run first second.
  apply (second_run_erases_first Sample.decode unit tt Sample.strict
           Sample.print Sample.tidy id Sample.out ∅
           (Sample.configured Sample.goodEncoded) (Sample.configured Sample.goodEncoded)
           Sample.clock "8/15/2024, 9:30:00 AM" Sample.blank first.2 second.2).
  - vm_compute. reflexivity.
  - vm_compute. reflexivity.
Defined.

Lemma empty_configuration_same_as_skip_witness :
  Probe.hook Probe.emptyPayload Sample.tidy Sample.blank
  = buildStart (Probe.decodeTo Probe.emptyPayload) unit tt Sample.lenient
      Sample.print Sample.tidy id Sample.out Sample.skipping ∅ Sample.clock Sample.blank.
Proof.
  apply (empty_configuration_same_as_skip (Probe.decodeTo Probe.emptyPayload)
           unit tt Sample.lenient Sample.print Sample.tidy id Sample.out
           ∅ Sample.skipping (Sample.configured "e30=") ∅ Sample.clock Sample.blank
           "e30=" Probe.emptyPayload).
  - reflexivity.
  - reflexivity.
  - reflexivity.
  - discriminate.
  - reflexivity.
  - reflexivity.
  - reflexivity.
Defined.

Lemma literal_one_per_element_witness :
  ∃ rendered,
    "[{chainIds: [1, 10], url: " +:+ dquote +:+ "https://x.test" +:+ dquote
    +:+ "}, {chainIds: [], url: " +:+ dquote +:+ "undefined" +:+ dquote +:+ "}]"
    = "[" +:+ String.concat ", " rendered +:+ "]"
    ∧ length rendered = 2
    ∧ (∀ i x, [entryValue Sample.entryA; VObject ∅] !! i = Some x →
         ∃ y, rendered !! i = Some y ∧ _formatEventIndexerConfigToTsLiteral x = Normal y)
    ∧ (∀ i y, rendered !! i = Some y →
         ∃ x, [entryValue Sample.entryA; VObject ∅] !! i = Some x
              ∧ _formatEventIndexerConfigToTsLiteral x = Normal y).
Proof.
  apply (literal_one_per_element [entryValue Sample.entryA; VObject ∅]). reflexivity.
Defined.
